(** * colorquant command line wrapper (cmd/cli.go)

    A shallow embedding of the command line front end of the colorquant
    image quantizer: the table of error diffusion kernels, the image
    loader [Open], the wrapper [Quantify] around the library's Quantize
    and the [main] driver, together with the properties that the
    specification states about them. *)

From Stdlib Require Import ZArith QArith Qabs String Ascii List Lia DecimalString.
From stdpp Require Import base option gmap strings list fin_maps.
Import ListNotations.

Local Open Scope Z_scope.

(** ** The diffusion kernels

    [colorquant.Dither] is a struct with one field, a matrix of float32
    (the table below builds it with positional composite literals).  Every
    cell of the table is a Go constant expression [n.0 / d.0]; constant
    arithmetic is exact in Go, so a cell denotes the rational [n/d], which
    is kept here as the fraction that is written in the source. *)

Record Dither := mkDither { Filter : list (list Q) }.

Definition FloydSteinberg : Dither := mkDither
  [ [0; 0; 0; 7 # 48; 5 # 48];
    [3 # 48; 5 # 48; 7 # 48; 5 # 48; 3 # 48];
    [1 # 48; 3 # 48; 5 # 48; 3 # 48; 1 # 48] ]%Q.

Definition Burkes : Dither := mkDither
  [ [0; 0; 0; 8 # 32; 4 # 32];
    [2 # 32; 4 # 32; 8 # 32; 4 # 32; 2 # 32];
    [0; 0; 0; 0; 0];
    [4 # 32; 8 # 32; 0; 0; 0] ]%Q.

Definition Stucki : Dither := mkDither
  [ [0; 0; 0; 8 # 42; 4 # 42];
    [2 # 42; 4 # 42; 8 # 42; 4 # 42; 2 # 42];
    [1 # 42; 2 # 42; 4 # 42; 2 # 42; 1 # 42] ]%Q.

Definition Atkinson : Dither := mkDither
  [ [0; 0; 1 # 8; 1 # 8];
    [1 # 8; 1 # 8; 1 # 8; 0];
    [0; 1 # 8; 0; 0] ]%Q.

Definition Sierra3 : Dither := mkDither
  [ [0; 0; 0; 5 # 32; 3 # 32];
    [2 # 32; 4 # 32; 5 # 32; 4 # 32; 2 # 32];
    [0; 2 # 32; 3 # 32; 2 # 32; 0] ]%Q.

Definition Sierra2 : Dither := mkDither
  [ [0; 0; 0; 4 # 16; 3 # 16];
    [1 # 16; 2 # 16; 3 # 16; 2 # 16; 1 # 16];
    [0; 0; 0; 0; 0] ]%Q.

Definition SierraLite : Dither := mkDither
  [ [0; 0; 2 # 4];
    [1 # 4; 1 # 4; 0];
    [0; 0; 0] ]%Q.

(** The entries of the map literal, in the order of the source. *)
Definition dither_entries : list (string * Dither) :=
  [ ("FloydSteinberg", FloydSteinberg);
    ("Burkes", Burkes);
    ("Stucki", Stucki);
    ("Atkinson", Atkinson);
    ("Sierra-3", Sierra3);
    ("Sierra-2", Sierra2);
    ("Sierra-Lite", SierraLite) ].

(** [var dither map[string]colorquant.Dither] *)
Definition dither : gmap string Dither := list_to_map dither_entries.

(** *** Measures of a kernel *)

Definition Qsum (l : list Q) : Q := fold_right Qplus 0%Q l.

(** Sum of all the weights of a kernel. *)
Definition weight_sum (d : Dither) : Q := Qsum (map Qsum (Filter d)).

Definition rows (d : Dither) : nat := length (Filter d).

(** [has_shape r c d]: [r] rows, each of [c] cells. *)
Definition has_shape (r c : nat) (d : Dither) : Prop :=
  rows d = r /\ Forall (fun row => length row = c) (Filter d).

(** [w] is a non negative multiple of [1/den]. *)
Definition over (den : positive) (w : Q) : Prop :=
  exists n : Z, 0 <= n /\ (w == n # den)%Q.

Definition weights_over (den : positive) (d : Dither) : Prop :=
  Forall (Forall (over den)) (Filter d).

(** The tolerance of the registration check, 1e-6. *)
Definition tolerance : Q := (1 # 1000000)%Q.

Definition within_tolerance (d : Dither) : Prop :=
  (Qabs (weight_sum d - 1) <= tolerance)%Q.

Definition within_toleranceb (d : Dither) : bool :=
  Qle_bool (Qabs (weight_sum d - 1)) tolerance.

(** ** Go values that cross the wrapper *)

(** An [error] value is identified with its message. *)
Definition error : Type := string.

(** Go's [int], taken as 64 bits wide, with its wrap-around. *)
Definition maxInt : Z := 2 ^ 63 - 1.
Definition int_wrap (z : Z) : Z := (z + 2 ^ 63) mod 2 ^ 64 - 2 ^ 63.

Module image.

Record Point := mkPoint { X : Z; Y : Z }.
Record Rectangle := mkRectangle { Min : Point; Max : Point }.

(** [image.Rect]: the rectangle of two corners, put in canonical order. *)
Definition Rect (x0 y0 x1 y1 : Z) : Rectangle :=
  let '(x0, x1) := if x1 <? x0 then (x1, x0) else (x0, x1) in
  let '(y0, y1) := if y1 <? y0 then (y1, y0) else (y0, y1) in
  mkRectangle (mkPoint x0 y0) (mkPoint x1 y1).

Definition Dx (r : Rectangle) : Z := int_wrap (X (Max r) - X (Min r)).
Definition Dy (r : Rectangle) : Z := int_wrap (Y (Max r) - Y (Min r)).

(** [color.RGBA], 8 bits a channel. *)
Record RGBA := mkRGBA { R : Z; G : Z; B : Z; A : Z }.

(** A value behind the [image.Image] interface: what [Bounds] and [At]
    answer.  The interface value itself may be nil: [option Image]. *)
Record Image := mkImage { Bounds : Rectangle; At : Z -> Z -> RGBA }.

(** [image.Paletted] *)
Record Paletted := mkPaletted {
  Pix : list Z;
  Stride : Z;
  PRect : Rectangle;
  Palette : list RGBA
}.

(** A raster that [NewPaletted] can allocate: no negative side, and a
    buffer length within [int]. *)
Definition allocatable (r : Rectangle) : bool :=
  (0 <=? Dx r) && (0 <=? Dy r) && (Dx r * Dy r <=? maxInt).

(** [image.NewPaletted]; [None] stands for its panic on a rectangle of
    huge or negative dimensions. *)
Definition NewPaletted (r : Rectangle) (p : list RGBA) : option Paletted :=
  let w := Dx r in
  let h := Dy r in
  if allocatable r
  then Some (mkPaletted (repeat 0 (Z.to_nat (1 * w * h))) (1 * w) r p)
  else None.

End image.

Module palette.
Import image.

Definition levels : list Z := [0x00; 0x33; 0x66; 0x99; 0xcc; 0xff].

(** [palette.WebSafe] of image/color/palette: the 216 opaque colours whose
    channels are multiples of 0x33, red varying slowest. *)
Definition WebSafe : list RGBA :=
  r ← levels; g ← levels; b ← levels; [mkRGBA r g b 0xff].

End palette.

(** The receiver of a Quantize call: the library's [colorquant.NoDither],
    or a kernel of the table. *)
Inductive Receiver :=
| NoDither
| Kernel (d : Dither).

(** ** The command line flags (the package level variables) *)

Record Flags := mkFlags {
  output : string;
  ditherer : string;
  imageType : string;
  noDither : bool;
  compression : Z;
  numColors : Z
}.

(** The defaults that [main] registers with the flag set. *)
Definition defaults : Flags :=
  mkFlags "output" "FloydSteinberg" "jpg" false 100 256.

Record file := mkFile { name : string }.

(** ** Effects

    A run of the program is the sequence of its calls into the operating
    system and the libraries, followed by how it ended. *)

Inductive Event :=
| EvPrint (s : string)                  (* standard output *)
| EvLog (s : string)                    (* the standard logger *)
| EvOpen (path : string)
| EvClose (path : string)
| EvDecode (path : string)
| EvNewPaletted (r : image.Rectangle) (p : list image.RGBA)
| EvQuantize (q : Receiver) (src : option image.Image) (dst : image.Paletted)
             (nq : Z) (b1 b2 : bool)
| EvCreate (path : string)
| EvJpegEncode (path : string) (img : option image.Image) (quality : Z)
| EvPngEncode (path : string) (img : option image.Image)
| EvMkdir (path : string)
| EvChdir (path : string)
| EvProgress                            (* progress(done) *)
| EvDone.                               (* done <- struct{}{} *)

Inductive Outcome (A : Type) :=
| Returned (a : A)
| Exited (code : Z)                     (* os.Exit *)
| Panicked (msg : string).              (* run time panic *)
Arguments Returned {A} a.
Arguments Exited {A} code.
Arguments Panicked {A} msg.

Record Run (A : Type) := mkRun { trace : list Event; outcome : Outcome A }.
Arguments mkRun {A} trace outcome.
Arguments trace {A} r.
Arguments outcome {A} r.

#[global] Instance Run_ret : MRet Run := fun A a => mkRun [] (Returned a).

#[global] Instance Run_bind : MBind Run := fun A B f m =>
  match outcome m with
  | Returned a => mkRun (trace m ++ trace (f a)) (outcome (f a))
  | Exited c => mkRun (trace m) (Exited c)
  | Panicked msg => mkRun (trace m) (Panicked msg)
  end.

Definition emit (e : Event) : Run unit := mkRun [e] (Returned tt).
Definition exit {A} (code : Z) : Run A := mkRun [] (Exited code).
Definition panic {A} (msg : string) : Run A := mkRun [] (Panicked msg).

(** [log.Fatal]: print through the logger, then [os.Exit(1)]. *)
Definition log_Fatal {A} (msg : string) : Run A := emit (EvLog msg);; exit 1.

(** [defer]: the deferred call runs when the body returns or panics, not
    when the process exits. *)
Definition defer {A} (cleanup : Event) (body : Run A) : Run A :=
  match outcome body with
  | Exited c => body
  | _ => mkRun (trace body ++ [cleanup]) (outcome body)
  end.

(** ** The world outside the program

    What the operating system and the libraries answer during one run.
    Each of them is asked at most once in a run, so a function of the
    arguments describes any behaviour of theirs. *)

Record World := mkWorld {
  (* commands.Parse under flag.ExitOnError: the flags as set from the
     arguments, or the exit code of a failed parse *)
  flag_Parse : Flags -> list string -> Flags + Z;
  (* os.Open: nil, or the error *)
  os_Open : string -> option error;
  (* image.Decode of the opened file *)
  image_Decode : string -> option image.Image * option error;
  filepath_Dir : string -> string;
  filepath_Abs : string -> string * option error;
  (* the Quantize method of the colorquant library *)
  Quantize : Receiver -> option image.Image -> image.Paletted -> Z ->
             bool -> bool -> option image.Image;
  os_Create : string -> option error;
  (* jpeg.Encode and png.Encode into the created file *)
  jpeg_Encode : string -> image.Image -> Z -> option error;
  png_Encode : string -> image.Image -> option error;
  (* time.Since(now).Seconds() as printed by %.2f *)
  elapsed : string
}.

(** ** The program *)

Definition nl : string := String "010"%char "".
Definition tab : string := String "009"%char "".
Definition dq : string := String "034"%char "".

Definition helper : string :=
  nl +:+ "Usage of commands:" +:+ nl +:+
  "  -compression int" +:+ nl +:+
  "    " +:+ tab +:+ "JPEG compression. (default 100)" +:+ nl +:+
  "  -ditherer string" +:+ nl +:+
  "    " +:+ tab +:+ "Dithering method. (default " +:+ dq +:+ "FloydSteinberg"
    +:+ dq +:+ ")" +:+ nl +:+
  "  -no-dither" +:+ nl +:+
  "    " +:+ tab +:+ "Use image quantizer without dithering." +:+ nl +:+
  "  -output string" +:+ nl +:+
  "    " +:+ tab +:+ "Output directory. (default " +:+ dq +:+ "output" +:+ dq
    +:+ ")" +:+ nl +:+
  "  -palette int" +:+ nl +:+
  "    " +:+ tab +:+ "The number of palette colors. (default 256)" +:+ nl +:+
  "  -type string" +:+ nl +:+
  "    " +:+ tab +:+ "Image type. Possible options .jpg, .png (default " +:+ dq
    +:+ "jpg" +:+ dq +:+ ")" +:+ nl.

Definition nil_dereference : string :=
  "runtime error: invalid memory address or nil pointer dereference".

Definition huge_dimensions : string :=
  "image: NewPaletted Rectangle has huge or negative dimensions".

Definition invalid_method : string := nl +:+ "Invalid dithering method!".

Definition palette_message : string :=
  "Color palette value cannot be less then 1".

Definition rendering : string := "Rendering image...".

Definition done_message : string := nl +:+ "Done✓" +:+ nl.

Section Program.
Import image.

Variable w : World.
(** The flag variables, as [commands.Parse] left them. *)
Variable g : Flags.

(** [func (file *file) Open() (image.Image, error)] *)
Definition Open (f : file) : Run (option Image * option error) :=
  emit (EvOpen (name f));;
  match os_Open w (name f) with
  | Some err => mret (None, Some err)
  | None =>
      defer (EvClose (name f))
        (emit (EvDecode (name f));;
         let '(img, err) := image_Decode w (name f) in
         mret (img, err))
  end.

(** [src.Bounds()] on an interface value that may be nil. *)
Definition Bounds_of (src : option Image) : Run Rectangle :=
  match src with
  | Some img => mret (Bounds img)
  | None => panic nil_dereference
  end.

Definition new_paletted (r : Rectangle) (p : list RGBA) : Run Paletted :=
  emit (EvNewPaletted r p);;
  match NewPaletted r p with
  | Some dst => mret dst
  | None => panic huge_dimensions
  end.

Definition call_Quantize (q : Receiver) (src : option Image) (dst : Paletted)
    (nq : Z) (b1 b2 : bool) : Run (option Image) :=
  emit (EvQuantize q src dst nq b1 b2);;
  mret (Quantize w q src dst nq b1 b2).

(** [jpeg.Encode] and [png.Encode] start with [m.Bounds()], which panics on
    a nil image. *)
Definition call_jpeg_Encode (out : string) (m : option Image) (quality : Z)
  : Run (option error) :=
  emit (EvJpegEncode out m quality);;
  match m with
  | Some img => mret (jpeg_Encode w out img quality)
  | None => panic nil_dereference
  end.

Definition call_png_Encode (out : string) (m : option Image)
  : Run (option error) :=
  emit (EvPngEncode out m);;
  match m with
  | Some img => mret (png_Encode w out img)
  | None => panic nil_dereference
  end.

(** [func (file *file) Quantify(src image.Image, output string)
     (image.Image, error)] *)
Definition Quantify (f : file) (src : option Image) (out : string)
  : Run (option Image * option error) :=
  bx ← Bounds_of src;
  by_ ← Bounds_of src;
  dst ← new_paletted (Rect 0 0 (Dx bx) (Dy by_)) palette.WebSafe;
  quant ←
    (if noDither g then
       call_Quantize NoDither src dst (numColors g) false true
     else
       match dither !! ditherer g with
       | None => log_Fatal invalid_method
       | Some d => call_Quantize (Kernel d) src dst (numColors g) true true
       end);
  emit (EvCreate out);;
  match os_Create w out with
  | Some err => mret (None, Some err)
  | None =>
      defer (EvClose out)
        (if decide (imageType g = "jpg") then
           err ← call_jpeg_Encode out quant (compression g);
           match err with
           | Some e => log_Fatal e
           | None => mret (quant, None)
           end
         else if decide (imageType g = "png") then
           err ← call_png_Encode out quant;
           match err with
           | Some e => log_Fatal e
           | None => mret (quant, None)
           end
         else mret (quant, None))
  end.

(** The function literal of [main] that processes the image; both
    results of every [Quantify] call are dropped. *)
Definition process (input : file) (img : option Image) : Run unit :=
  (if decide (imageType g = "jpg") then
     if noDither g then Quantify input img "output.jpg";; mret tt
     else Quantify input img (ditherer g +:+ ".jpg");; mret tt
   else if decide (imageType g = "png") then
     if noDither g then Quantify input img "output.png";; mret tt
     else Quantify input img (ditherer g +:+ ".png");; mret tt
   else mret tt);;
  emit EvDone.

End Program.

Definition usage : Run unit := emit (EvPrint (helper +:+ nl));; exit 1.

(** [func main()], on [os.Args]. *)
Definition main (w : World) (Args : list string) : Run unit :=
  match Args with
  | _ :: a1 :: rest =>
      if decide (a1 = "--help" \/ a1 = "-h") then usage
      else
        match flag_Parse w defaults rest with
        | inr code => exit code
        | inl g =>
            let input := mkFile a1 in
            '(img, _) ← Open w input;
            (* commands.Parsed() holds once Parse has returned *)
            if numColors g <=? 1 then log_Fatal palette_message
            else
              let '(cwd, err) := filepath_Abs w (filepath_Dir w (name input)) in
              match err with
              | Some e => log_Fatal e
              | None =>
                  let newDir := filepath_Dir w cwd +:+ "/" +:+ output g in
                  emit (EvMkdir newDir);;
                  (* err is still nil: the result of os.Mkdir is dropped *)
                  emit (EvChdir newDir);;
                  emit (EvPrint rendering);;
                  emit EvProgress;;
                  process w g input img;;
                  emit (EvPrint done_message);;
                  emit (EvPrint ("Rendered in: " +:+ elapsed w +:+ "s" +:+ nl))
              end
        end
  | _ => usage
  end.

(** ** Checkers and observations used in the statements *)

Definition overb (den : positive) (w : Q) : bool :=
  let n := (Qnum w * Z.pos den) / Z.pos (Qden w) in
  (0 <=? n) && Qeq_bool w (n # den).

Definition weights_overb (den : positive) (d : Dither) : bool :=
  forallb (forallb (overb den)) (Filter d).

Definition has_shapeb (r c : nat) (d : Dither) : bool :=
  (rows d =? r)%nat && forallb (fun row => (length row =? c)%nat) (Filter d).

(** The weight tables of the contract: for each kernel the name, the rows,
    the columns and the denominator that the specification lists, and the
    numerator of every cell, row by row. *)
Record Listed := mkListed {
  l_name : string; l_rows : nat; l_cols : nat; l_den : positive;
  l_num : list (list Z)
}.

Definition listed_kernels : list Listed :=
  [ mkListed "FloydSteinberg" 3 5 48
      [ [0; 0; 0; 7; 5];
        [3; 5; 7; 5; 3];
        [1; 3; 5; 3; 1] ];
    mkListed "Burkes" 4 5 32
      [ [0; 0; 0; 8; 4];
        [2; 4; 8; 4; 2];
        [0; 0; 0; 0; 0];
        [4; 8; 0; 0; 0] ];
    mkListed "Stucki" 3 5 42
      [ [0; 0; 0; 8; 4];
        [2; 4; 8; 4; 2];
        [1; 2; 4; 2; 1] ];
    mkListed "Atkinson" 3 4 8
      [ [0; 0; 1; 1];
        [1; 1; 1; 0];
        [0; 1; 0; 0] ];
    mkListed "Sierra-3" 3 5 32
      [ [0; 0; 0; 5; 3];
        [2; 4; 5; 4; 2];
        [0; 2; 3; 2; 0] ];
    mkListed "Sierra-2" 3 5 16
      [ [0; 0; 0; 4; 3];
        [1; 2; 3; 2; 1];
        [0; 0; 0; 0; 0] ];
    mkListed "Sierra-Lite" 3 3 4
      [ [0; 0; 2];
        [1; 1; 0];
        [0; 0; 0] ] ].

(** A cell of a weight table: zero, or the numerator over the denominator
    of its kernel, not reduced. *)
Definition written (den : positive) (n : Z) : Q :=
  if (n =? 0)%Z then 0%Q else (n # den)%Q.

(** The matrix of a listed kernel. *)
Definition listed_matrix (e : Listed) : list (list Q) :=
  map (map (written (l_den e))) (l_num e).

Definition is_quantize (e : Event) : bool :=
  match e with EvQuantize _ _ _ _ _ _ => true | _ => false end.

Definition is_encode (e : Event) : bool :=
  match e with EvJpegEncode _ _ _ | EvPngEncode _ _ => true | _ => false end.

(** The rectangle of the destination that [Quantify] asks for, given the
    bounds of the source. *)
Definition destination (b : image.Rectangle) : image.Rectangle :=
  image.Rect 0 0 (image.Dx b) (image.Dy b).

(** ** A sample world

    A machine on which every call succeeds unless told otherwise, used to
    run the program on concrete command lines. *)

Definition parse_int (s : string) : option Z :=
  Z.of_int <$> NilEmpty.int_of_string s.

(** The [-flag value] form of the command line, and [-no-dither]; anything
    else is reported as a failed parse (exit code 2). *)
Fixpoint sample_Parse (g : Flags) (args : list string) : Flags + Z :=
  match args with
  | [] => inl g
  | a :: rest =>
      if decide (a = "-no-dither") then
        sample_Parse (mkFlags (output g) (ditherer g) (imageType g) true
                        (compression g) (numColors g)) rest
      else
        match rest with
        | [] => inr 2
        | v :: rest' =>
            if decide (a = "-output") then
              sample_Parse (mkFlags v (ditherer g) (imageType g) (noDither g)
                              (compression g) (numColors g)) rest'
            else if decide (a = "-ditherer") then
              sample_Parse (mkFlags (output g) v (imageType g) (noDither g)
                              (compression g) (numColors g)) rest'
            else if decide (a = "-type") then
              sample_Parse (mkFlags (output g) (ditherer g) v (noDither g)
                              (compression g) (numColors g)) rest'
            else if decide (a = "-compression") then
              match parse_int v with
              | Some n =>
                  sample_Parse (mkFlags (output g) (ditherer g) (imageType g)
                                  (noDither g) n (numColors g)) rest'
              | None => inr 2
              end
            else if decide (a = "-palette") then
              match parse_int v with
              | Some n =>
                  sample_Parse (mkFlags (output g) (ditherer g) (imageType g)
                                  (noDither g) (compression g) n) rest'
              | None => inr 2
              end
            else inr 2
        end
  end.

Definition gray : image.RGBA := image.mkRGBA 128 128 128 255.

(** A 2 x 2 image of one colour. *)
Definition sample_image : image.Image :=
  image.mkImage (image.Rect 0 0 2 2) (fun _ _ => gray).

(** A paletted image seen through the [image.Image] interface; the pixel
    buffer of a fresh image is all zero. *)
Definition Paletted_image (p : image.Paletted) : image.Image :=
  image.mkImage (image.PRect p)
    (fun _ _ => List.hd (image.mkRGBA 0 0 0 0) (image.Palette p)).

(** [decoded] is what image.Decode answers, [created] what os.Create
    answers and [encoded] what the two encoders answer. *)
Definition sample_world (decoded : option image.Image * option error)
    (created encoded : option error) : World :=
  {| flag_Parse := sample_Parse;
     os_Open := fun _ => None;
     image_Decode := fun _ => decoded;
     filepath_Dir := fun _ => "/home/user";
     filepath_Abs := fun p => (p, None);
     Quantize := fun _ _ dst _ _ _ => Some (Paletted_image dst);
     os_Create := fun _ => created;
     jpeg_Encode := fun _ _ _ => encoded;
     png_Encode := fun _ _ => encoded;
     elapsed := "0.01" |}.

(** The world in which nothing fails. *)
Definition fair_world : World :=
  sample_world (Some sample_image, None) None None.

(** Decoding fails: no image, and an error. *)
Definition undecodable_world : World :=
  sample_world (None, Some "image: unknown format") None None.

(** The encoders fail. *)
Definition failing_encoder_world : World :=
  sample_world (Some sample_image, None) None (Some "jpeg: encoding failed").

(** The output file cannot be created. *)
Definition read_only_world : World :=
  sample_world (Some sample_image, None) (Some "permission denied") None.

(** Flags that name a kernel which is not in the table. *)
Definition unknown_kernel : Flags :=
  mkFlags "output" "Bayer" "jpg" false 100 256.

(** Flags with an image type that is neither jpg nor png. *)
Definition gif_flags : Flags :=
  mkFlags "output" "FloydSteinberg" "gif" false 100 256.

(** Flags with a palette of one colour. *)
Definition single_colour : Flags :=
  mkFlags "output" "FloydSteinberg" "jpg" false 100 1.

(** The destination of [sample_image]. *)
Definition sample_dst : image.Paletted :=
  image.mkPaletted [0; 0; 0; 0] 2 (image.Rect 0 0 2 2) palette.WebSafe.

(** ** Observations on whole runs *)

(** The file name that [main] hands to [Quantify]: [output] or the name of
    the ditherer, with the image type as extension. *)
Definition output_name (g : Flags) : string :=
  (if noDither g then "output" else ditherer g) +:+ "." +:+ imageType g.

(** The last line that [main] prints. *)
Definition rendered_message (w : World) : string :=
  "Rendered in: " +:+ elapsed w +:+ "s" +:+ nl.

(** What [main] does between the checks and the processing step, in the
    directory [d]. *)
Definition setup_events (d : string) : list Event :=
  [EvMkdir d; EvChdir d; EvPrint rendering; EvProgress].

(** [main] was asked for its usage text, or was given no input file. *)
Definition wants_usage (Args : list string) : Prop :=
  (length Args <= 1)%nat \/
  Args !! 1%nat = Some "--help" \/ Args !! 1%nat = Some "-h".

(** The ways through [main]: the usage text, a failed parse of the flags,
    the two fatal checks, and the processing step followed by the messages
    of completion. *)
Inductive main_path (w : World) (Args : list string) : Prop :=
| path_usage :
    wants_usage Args ->
    main w Args = mkRun [EvPrint (helper +:+ nl)] (Exited 1) ->
    main_path w Args
| path_flags (a0 a1 : string) (rest : list string) (code : Z) :
    Args = a0 :: a1 :: rest -> ~ wants_usage Args ->
    flag_Parse w defaults rest = inr code ->
    main w Args = mkRun [] (Exited code) ->
    main_path w Args
| path_palette (a0 a1 : string) (rest : list string) (g : Flags) :
    Args = a0 :: a1 :: rest -> ~ wants_usage Args ->
    flag_Parse w defaults rest = inl g ->
    numColors g <= 1 ->
    main w Args =
    mkRun (trace (Open w (mkFile a1)) ++ [EvLog palette_message]) (Exited 1) ->
    main_path w Args
| path_abs (a0 a1 : string) (rest : list string) (g : Flags)
      (cwd : string) (e : error) :
    Args = a0 :: a1 :: rest -> ~ wants_usage Args ->
    flag_Parse w defaults rest = inl g ->
    1 < numColors g ->
    filepath_Abs w (filepath_Dir w a1) = (cwd, Some e) ->
    main w Args =
    mkRun (trace (Open w (mkFile a1)) ++ [EvLog e]) (Exited 1) ->
    main_path w Args
| path_process (a0 a1 : string) (rest : list string) (g : Flags)
      (cwd : string) (img : option image.Image) (oerr : option error) :
    Args = a0 :: a1 :: rest -> ~ wants_usage Args ->
    flag_Parse w defaults rest = inl g ->
    1 < numColors g ->
    filepath_Abs w (filepath_Dir w a1) = (cwd, None) ->
    outcome (Open w (mkFile a1)) = Returned (img, oerr) ->
    main w Args =
    (mkRun (trace (Open w (mkFile a1)) ++
            setup_events (filepath_Dir w cwd +:+ "/" +:+ output g))
           (Returned tt);;
     process w g (mkFile a1) img;;
     emit (EvPrint done_message);;
     emit (EvPrint (rendered_message w))) ->
    main_path w Args.

(** The events that only [Quantify] produces. *)
Definition from_Quantify (e : Event) : bool :=
  match e with
  | EvNewPaletted _ _ | EvQuantize _ _ _ _ _ _ | EvCreate _
  | EvJpegEncode _ _ _ | EvPngEncode _ _ => true
  | _ => false
  end.

(** A run that ends in [log.Fatal] with the message [s]. *)
Definition fatal {A} (r : Run A) (s : string) : Prop :=
  outcome r = Exited 1 /\ last (trace r) = Some (EvLog s).

(** ** Proof automation *)

(** Settle a property of all the entries, one entry at a time. *)
Ltac each_entry tac :=
  cbv [dither_entries listed_kernels];
  repeat (apply Forall_cons_2; [simpl; tac |]); apply Forall_nil_2.

(** Split a membership in an explicit list of events into its cases. *)
Ltac in_cases :=
  repeat match goal with
  | H : _ ∈ [] |- _ => by apply elem_of_nil in H
  | H : _ ∈ _ :: _ |- _ => apply elem_of_cons in H as [H|H]
  | H : _ ∈ _ ++ _ |- _ => apply elem_of_app in H as [H|H]
  end.

(** Reduce the monad of runs, and nothing else. *)
Ltac run_simpl :=
  unfold mbind, mret, Run_bind, Run_ret, log_Fatal, defer, emit, exit, panic;
  cbn [trace outcome app].

(** Run [Quantify] through all of its branches. *)
Ltac Quantify_cases w g src out :=
  unfold Quantify, Bounds_of, new_paletted, call_Quantize, call_jpeg_Encode,
    call_png_Encode;
  destruct src as [?img|]; run_simpl;
  [ destruct (image.NewPaletted _ _) as [?dst|] eqn:?; run_simpl;
    [ destruct (noDither g) eqn:?; run_simpl;
      [| destruct (dither !! ditherer g) as [?d|] eqn:?; run_simpl ];
      try (destruct (os_Create w out) as [?err|] eqn:?; run_simpl;
           [| case_decide; run_simpl;
              [ destruct (Quantize w _ _ _ _ _ _) as [?m|] eqn:?; run_simpl;
                [destruct (jpeg_Encode w out _ _) as [?err|] eqn:?; run_simpl |]
              | case_decide; run_simpl;
                [ destruct (Quantize w _ _ _ _ _ _) as [?m|] eqn:?; run_simpl;
                  [destruct (png_Encode w out _) as [?err|] eqn:?; run_simpl |]
                | ] ] ])
    | ]
  | ].

(** Membership in an explicit list, by position, without computing. *)
Ltac find_in :=
  solve [repeat first [apply list_elem_of_here | apply list_elem_of_further]].

(** Membership in an explicit list, by position. *)
Ltac find_event :=
  vm_compute;
  repeat first [apply list_elem_of_here | apply list_elem_of_further].

(** * Properties *)

(** ** The kernel table *)

Lemma overb_sound den w : overb den w = true -> over den w.
Proof.
  unfold overb, over. intros H.
  apply andb_prop in H as [Hn Hq].
  eexists. split; [apply Z.leb_le, Hn | apply Qeq_bool_eq, Hq].
Qed.

Lemma weights_overb_sound den d :
  weights_overb den d = true -> weights_over den d.
Proof.
  unfold weights_overb, weights_over. intros H.
  apply Forall_forall. intros row Hrow.
  apply Forall_forall. intros x Hx.
  apply overb_sound.
  rewrite forallb_forall in H. specialize (H row).
  rewrite forallb_forall in H. apply H.
  - apply list_elem_of_In, Hrow.
  - apply list_elem_of_In, Hx.
Qed.

Lemma has_shapeb_sound r c d : has_shapeb r c d = true -> has_shape r c d.
Proof.
  unfold has_shapeb, has_shape. intros H.
  apply andb_prop in H as [Hr Hc]. split.
  - apply Nat.eqb_eq, Hr.
  - apply Forall_forall. intros row Hrow.
    rewrite forallb_forall in Hc. apply Nat.eqb_eq, Hc, list_elem_of_In, Hrow.
Qed.

Lemma within_toleranceb_spec d :
  within_toleranceb d = true <-> within_tolerance d.
Proof. unfold within_toleranceb, within_tolerance. apply Qle_bool_iff. Qed.

(** An entry found in the map is one of the entries of the literal. *)
Lemma dither_lookup_entry (k : string) (d : Dither) :
  dither !! k = Some d -> (k, d) ∈ dither_entries.
Proof. apply elem_of_list_to_map_2. Qed.

Lemma dither_entries_ind (P : string -> Dither -> Prop) :
  Forall (fun e => P e.1 e.2) dither_entries ->
  forall k d, dither !! k = Some d -> P k d.
Proof.
  intros HP k d Hk. apply dither_lookup_entry in Hk.
  rewrite Forall_forall in HP. apply (HP (k, d) Hk).
Qed.

(** The sums of the seven kernels, in lowest terms. *)
Lemma weight_sums :
  map (fun e => (e.1, Qred (weight_sum e.2))) dither_entries =
  [ ("FloydSteinberg", 1%Q); ("Burkes", (11 # 8)%Q); ("Stucki", 1%Q);
    ("Atkinson", (3 # 4)%Q); ("Sierra-3", 1%Q); ("Sierra-2", 1%Q);
    ("Sierra-Lite", 1%Q) ].
Proof. vm_compute. reflexivity. Qed.


(** C1, as stated, fails: the Atkinson entry of the table sums to 6/8,
    which is not within 1e-6 of 1. *)
Lemma Atkinson_not_within_tolerance :
  dither !! "Atkinson" = Some Atkinson /\
  (weight_sum Atkinson == 6 # 8)%Q /\
  ~ within_tolerance Atkinson.
Proof.
  split; [vm_compute; reflexivity |]. split; [vm_compute; reflexivity |].
  intros H. apply within_toleranceb_spec in H. vm_compute in H.
  discriminate H.
Qed.

(** C1, amended: leaving the Burkes entry aside, every kernel of the table
    other than Atkinson has weights that sum to 1 within 1e-6, and the
    weights of Atkinson sum to 6/8. *)
Theorem kernel_sum_within_tolerance (k : string) (d : Dither) :
  dither !! k = Some d -> k <> "Burkes" ->
  (k = "Atkinson" /\ (weight_sum d == 6 # 8)%Q) \/
  (k <> "Atkinson" /\ within_tolerance d).
Proof.
  revert k d.
  apply (dither_entries_ind (fun k d => k <> "Burkes" ->
    (k = "Atkinson" /\ (weight_sum d == 6 # 8)%Q) \/
    (k <> "Atkinson" /\ within_tolerance d))).
  each_entry ltac:(intros Hne;
    first [ congruence
          | left; split; [reflexivity | vm_compute; reflexivity]
          | right; split; [discriminate |
              apply within_toleranceb_spec; vm_compute; reflexivity] ]).
Qed.

Lemma kernel_sum_within_tolerance_witness :
  ("Stucki" = "Atkinson" /\ (weight_sum Stucki == 6 # 8)%Q) \/
  ("Stucki" <> "Atkinson" /\ within_tolerance Stucki).
Proof.
  apply (kernel_sum_within_tolerance "Stucki" Stucki).
  - vm_compute. reflexivity.
  - discriminate.
Defined.

(** C3: the weights of Atkinson sum to 6/8, and those of Burkes sum to
    44/32, which is not 1: Atkinson is not the only entry off 1. *)
Theorem Burkes_weights_sum :
  (exists a, dither !! "Atkinson" = Some a /\ (weight_sum a == 6 # 8)%Q) /\
  (exists b, dither !! "Burkes" = Some b /\ (weight_sum b == 44 # 32)%Q /\
             ~ (weight_sum b == 1)%Q).
Proof.
  split.
  - exists Atkinson. split; vm_compute; reflexivity.
  - exists Burkes. split; [vm_compute; reflexivity |].
    split; [vm_compute; reflexivity |].
    intros H. vm_compute in H. discriminate H.
Qed.

(** Every entry other than Atkinson and Burkes sums to exactly 1. *)
Lemma other_kernels_sum_to_one (k : string) (d : Dither) :
  dither !! k = Some d -> k <> "Atkinson" -> k <> "Burkes" ->
  (weight_sum d == 1)%Q.
Proof.
  revert k d.
  apply (dither_entries_ind (fun k d =>
    k <> "Atkinson" -> k <> "Burkes" -> (weight_sum d == 1)%Q)).
  each_entry ltac:(intros H1 H2;
    first [ congruence | vm_compute; reflexivity ]).
Qed.

(** ** Runs *)

Lemma bind_returned {A B} (m : Run A) (f : A -> Run B) (a : A) :
  outcome m = Returned a ->
  m ≫= f = mkRun (trace m ++ trace (f a)) (outcome (f a)).
Proof. intros H. unfold mbind, Run_bind. rewrite H. reflexivity. Qed.

Lemma bind_exited {A B} (m : Run A) (f : A -> Run B) (c : Z) :
  outcome m = Exited c -> m ≫= f = mkRun (trace m) (Exited c).
Proof. intros H. unfold mbind, Run_bind. rewrite H. reflexivity. Qed.

Lemma bind_panicked {A B} (m : Run A) (f : A -> Run B) (msg : string) :
  outcome m = Panicked msg -> m ≫= f = mkRun (trace m) (Panicked msg).
Proof. intros H. unfold mbind, Run_bind. rewrite H. reflexivity. Qed.

(** The events of a prefix of a run stay in the run. *)
Lemma trace_bind_l {A B} (m : Run A) (f : A -> Run B) (e : Event) :
  e ∈ trace m -> e ∈ trace (m ≫= f).
Proof.
  intros H. unfold mbind, Run_bind.
  destruct (outcome m); simpl; [apply elem_of_app; left |..]; exact H.
Qed.

(** An event of [m ≫= f] is one of [m] or one of the continuation. *)
Lemma trace_bind_inv {A B} (m : Run A) (f : A -> Run B) (e : Event) :
  e ∈ trace (m ≫= f) ->
  e ∈ trace m \/ exists a, outcome m = Returned a /\ e ∈ trace (f a).
Proof.
  unfold mbind, Run_bind.
  destruct (outcome m) as [a| |] eqn:E; simpl; intros H; [| by left ..].
  apply elem_of_app in H as [H|H]; [by left | right; eauto].
Qed.

Lemma NewPaletted_Some (r : image.Rectangle) (p : list image.RGBA)
    (dst : image.Paletted) :
  image.NewPaletted r p = Some dst ->
  image.PRect dst = r /\ image.Palette dst = p /\
  image.allocatable r = true.
Proof.
  unfold image.NewPaletted. destruct (image.allocatable r); [| discriminate].
  intros [= <-]. auto.
Qed.

Lemma WebSafe_length : length palette.WebSafe = 216%nat.
Proof. reflexivity. Qed.

Lemma int_wrap_small (z : Z) : - 2 ^ 63 <= z <= maxInt -> int_wrap z = z.
Proof.
  unfold int_wrap, maxInt. intros H.
  rewrite Z.mod_small; lia.
Qed.

Lemma int_wrap_range (z : Z) : - 2 ^ 63 <= int_wrap z <= maxInt.
Proof.
  unfold int_wrap, maxInt.
  pose proof (Z.mod_pos_bound (z + 2 ^ 63) (2 ^ 64) ltac:(lia)). lia.
Qed.

(** A rectangle built from the origin and a non negative size has that
    size. *)
Lemma Rect_origin_size (b : image.Rectangle) :
  0 <= image.Dx b -> 0 <= image.Dy b ->
  image.Dx (image.Rect 0 0 (image.Dx b) (image.Dy b)) = image.Dx b /\
  image.Dy (image.Rect 0 0 (image.Dx b) (image.Dy b)) = image.Dy b.
Proof.
  intros Hx Hy.
  pose proof (int_wrap_range (image.X (image.Max b) - image.X (image.Min b))) as Rx.
  pose proof (int_wrap_range (image.Y (image.Max b) - image.Y (image.Min b))) as Ry.
  fold (image.Dx b) in Rx. fold (image.Dy b) in Ry.
  unfold image.Rect.
  destruct (Z.ltb_spec (image.Dx b) 0); [lia |].
  destruct (Z.ltb_spec (image.Dy b) 0); [lia |].
  split; [unfold image.Dx at 1 | unfold image.Dy at 1];
    cbn [image.X image.Y image.Max image.Min];
    rewrite Z.sub_0_r; apply int_wrap_small; lia.
Qed.

(** ** The wrapper [Quantify] *)

Section Quantify_facts.
Import image.
Variables (w : World) (g : Flags) (f : file).

(** What every Quantize call of [Quantify] looks like. *)
Lemma Quantify_call (src : option Image) (out : string)
    (q : Receiver) (s : option Image) (dst : Paletted) (nq : Z) (b1 b2 : bool) :
  EvQuantize q s dst nq b1 b2 ∈ trace (Quantify w g f src out) ->
  exists img,
    src = Some img /\ s = src /\ nq = numColors g /\
    NewPaletted (destination (Bounds img)) palette.WebSafe = Some dst /\
    b1 = negb (noDither g) /\ b2 = true /\
    (if noDither g then q = NoDither
     else exists d, dither !! ditherer g = Some d /\ q = Kernel d).
Proof.
  Quantify_cases w g src out; intros Hev; in_cases; simplify_eq;
    eexists; repeat split; eauto.
Qed.

(** C5: in dithering mode every Quantize call of [Quantify] has a kernel
    of the table as its receiver, and with a name that is not in the
    table no call is made: the run ends in [log.Fatal] with the
    message of the invalid method (or earlier, in the panic of a missing
    source or of a destination that cannot be allocated). *)
Theorem Quantify_validates_kernel (src : option Image) (out : string) :
  noDither g = false ->
  (forall q s dst nq b1 b2,
      EvQuantize q s dst nq b1 b2 ∈ trace (Quantify w g f src out) ->
      exists d, dither !! ditherer g = Some d /\ q = Kernel d) /\
  (dither !! ditherer g = None ->
   (forall e, e ∈ trace (Quantify w g f src out) -> is_quantize e = false) /\
   match src with
   | Some img =>
       if allocatable (destination (Bounds img)) then
         Quantify w g f src out =
         mkRun [EvNewPaletted (destination (Bounds img)) palette.WebSafe;
                EvLog invalid_method] (Exited 1)
       else outcome (Quantify w g f src out) = Panicked huge_dimensions
   | None => Quantify w g f src out = mkRun [] (Panicked nil_dereference)
   end).
Proof.
  intros Hd. split.
  - intros q s dst nq b1 b2 Hev.
    apply Quantify_call in Hev as (img & _ & _ & _ & _ & _ & _ & Hq).
    rewrite Hd in Hq. exact Hq.
  - intros Hk. split.
    + intros [] He; try reflexivity.
      apply Quantify_call in He as (img & _ & _ & _ & _ & _ & _ & Hq).
      rewrite Hd, Hk in Hq. destruct Hq as (d & [=] & _).
    + unfold Quantify, Bounds_of, new_paletted, call_Quantize, NewPaletted.
      destruct src as [img|]; run_simpl; [| reflexivity].
      fold (destination (Bounds img)).
      destruct (allocatable (destination (Bounds img))); run_simpl;
        [| reflexivity].
      rewrite Hd, Hk. reflexivity.
Qed.

(** C7: of the two booleans that end a Quantize call, the first is the
    negation of the no-dither flag and the second is true. *)
Theorem Quantify_trailing_flags (src : option Image) (out : string)
    (q : Receiver) (s : option Image) (dst : Paletted) (nq : Z) (b1 b2 : bool) :
  EvQuantize q s dst nq b1 b2 ∈ trace (Quantify w g f src out) ->
  b1 = negb (noDither g) /\ b2 = true /\
  (b1 = false <-> noDither g = true).
Proof.
  intros Hev.
  apply Quantify_call in Hev as (img & _ & _ & _ & _ & -> & -> & _).
  destruct (noDither g); simpl; intuition congruence.
Qed.


(** C9: with an image type that is neither jpg nor png, a [Quantify] that
    gets its quantized image and creates the output file calls no
    encoder and returns that image with a nil error. *)
Theorem Quantify_unrecognized_type (img : Image) (out : string) :
  imageType g <> "jpg" -> imageType g <> "png" ->
  allocatable (destination (Bounds img)) = true ->
  noDither g = true \/ is_Some (dither !! ditherer g) ->
  os_Create w out = None ->
  exists q dst,
    let quant := Quantize w q (Some img) dst (numColors g)
                   (negb (noDither g)) true in
    Quantify w g f (Some img) out =
    mkRun [EvNewPaletted (destination (Bounds img)) palette.WebSafe;
           EvQuantize q (Some img) dst (numColors g) (negb (noDither g)) true;
           EvCreate out; EvClose out]
          (Returned (quant, None)) /\
    (forall e, e ∈ trace (Quantify w g f (Some img) out) ->
               is_encode e = false).
Proof.
  intros Hj Hp Ha Hk Hc.
  unfold Quantify, Bounds_of, new_paletted, call_Quantize, NewPaletted.
  run_simpl. fold (destination (Bounds img)). rewrite Ha. run_simpl.
  destruct (noDither g) eqn:Hd; run_simpl.
  - rewrite Hc. run_simpl. rewrite !decide_False by assumption. run_simpl.
    do 2 eexists. split; [reflexivity |].
    intros e He. in_cases; subst; reflexivity.
  - destruct Hk as [[=] | [d Hd']]. rewrite Hd'. run_simpl.
    rewrite Hc. run_simpl. rewrite !decide_False by assumption. run_simpl.
    do 2 eexists. split; [reflexivity |].
    intros e He. in_cases; subst; reflexivity.
Qed.

End Quantify_facts.

(** ** The driver [main] *)

Section main_facts.
Import image.
Variable w : World.

(** [Open] always returns, and returns what the loader reported. *)
Lemma Open_run (f : file) :
  Open w f =
  match os_Open w (name f) with
  | Some err => mkRun [EvOpen (name f)] (Returned (None, Some err))
  | None =>
      mkRun [EvOpen (name f); EvDecode (name f); EvClose (name f)]
            (Returned (image_Decode w (name f)))
  end.
Proof.
  unfold Open. destruct (os_Open w (name f)); run_simpl; [reflexivity |].
  destruct (image_Decode w (name f)). reflexivity.
Qed.

Lemma Open_returns (f : file) :
  exists t r, Open w f = mkRun t (Returned r) /\
    forall e, e ∈ t ->
      e = EvOpen (name f) \/ e = EvDecode (name f) \/ e = EvClose (name f).
Proof.
  rewrite Open_run. destruct (os_Open w (name f)); do 2 eexists;
    (split; [reflexivity |]); intros ev He; in_cases; auto.
Qed.

(** No event of [Quantify] is a print on standard output or the start of the
    progress dots. *)
Lemma Quantify_silent (g : Flags) (f : file) (src : option Image)
    (out : string) (ev : Event) :
  ev ∈ trace (Quantify w g f src out) ->
  (forall s, ev <> EvPrint s) /\ ev <> EvProgress.
Proof.
  Quantify_cases w g src out; intros He; in_cases; subst; split; congruence.
Qed.

(** The processing step returns exactly when its [Quantify] call, if it
    makes one, returns: what the call returns is not looked at. *)
Lemma process_silent (g : Flags) (f : file) (img : option Image) (e : Event) :
  e ∈ trace (process w g f img) ->
  (forall s, e <> EvPrint s) /\ e <> EvProgress.
Proof.
  unfold process. intros He.
  apply trace_bind_inv in He as [He | (a & _ & He)].
  - repeat case_decide; try destruct (noDither g);
      try (apply trace_bind_inv in He as [He | (r & _ & He)];
           [by apply Quantify_silent in He | ]);
      revert He; run_simpl; intros He; in_cases.
  - revert He. run_simpl. intros He. in_cases. subst. split; congruence.
Qed.

(** The output file that [Quantify] creates is the one it was given, and
    when creating it fails the error is returned. *)
Lemma Quantify_create_failure (g : Flags) (f : file) (src : option Image)
    (out o : string) (err : error) :
  EvCreate o ∈ trace (Quantify w g f src out) ->
  os_Create w o = Some err ->
  o = out /\ outcome (Quantify w g f src out) = Returned (None, Some err).
Proof.
  Quantify_cases w g src out; intros He Hc; in_cases; simplify_eq; auto.
Qed.

Lemma process_create_failure (g : Flags) (f : file) (img : option Image)
    (o : string) (err : error) :
  EvCreate o ∈ trace (process w g f img) ->
  os_Create w o = Some err ->
  outcome (process w g f img) = Returned tt.
Proof.
  unfold process. intros He Hc.
  apply trace_bind_inv in He as [He | (a & _ & He)].
  - repeat case_decide; try destruct (noDither g);
      try (apply trace_bind_inv in He as [He | (r & _ & He)];
           [ apply (Quantify_create_failure _ _ _ _ _ err) in He as [_ Hq];
             [| exact Hc]; run_simpl; rewrite Hq; reflexivity
           | revert He; run_simpl; intros He; in_cases ]);
      revert He; run_simpl; intros He; in_cases.
  - revert He. run_simpl. intros He. in_cases. discriminate.
Qed.

(** A run of [main] either stops before the processing step, or has parsed
    its flags and goes on with the processing step and the two closing
    messages. *)
Lemma main_shape (Args : list string) :
  (forall e, e ∈ trace (main w Args) ->
             e <> EvProgress /\ is_quantize e = false) \/
  (exists a0 a1 rest g pre img err,
    Args = a0 :: a1 :: rest /\
    flag_Parse w defaults rest = inl g /\
    outcome (Open w (mkFile a1)) = Returned (img, err) /\
    (forall s, EvPrint s ∈ pre -> s = rendering) /\
    (forall e, e ∈ pre -> is_quantize e = false) /\
    main w Args =
    (mkRun pre (Returned tt);;
     process w g (mkFile a1) img;;
     emit (EvPrint done_message);;
     emit (EvPrint ("Rendered in: " +:+ elapsed w +:+ "s" +:+ nl)))).
Proof.
  destruct Args as [|a0 [|a1 rest]]; unfold main, usage;
    try (left; run_simpl; intros ev He; in_cases; subst; by split).
  case_decide; [left; run_simpl; intros ev He; in_cases; subst; by split |].
  destruct (flag_Parse w defaults rest) as [g|code] eqn:Hp;
    [| left; run_simpl; intros ev He; in_cases].
  rewrite Open_run. cbn [name].
  destruct (os_Open w a1) as [e|] eqn:Ho;
    [| destruct (image_Decode w a1) as [img err] eqn:Hd];
    run_simpl;
    (destruct (numColors g <=? 1);
     [left; run_simpl; intros ev He; in_cases; subst; by split |]);
    (destruct (filepath_Abs w (filepath_Dir w a1)) as [cwd [e'|]];
     [left; run_simpl; intros ev He; in_cases; subst; by split |]);
    right; do 4 eexists.
  - exists [EvOpen a1; EvMkdir (filepath_Dir w cwd +:+ "/" +:+ output g);
            EvChdir (filepath_Dir w cwd +:+ "/" +:+ output g);
            EvPrint rendering; EvProgress], None, (Some e).
    split; [reflexivity |]. split; [exact Hp |].
    split; [rewrite Open_run; cbn [name]; rewrite Ho; reflexivity |].
    split; [intros s Hs; in_cases; congruence |].
    split; [intros ev He; in_cases; subst; reflexivity | reflexivity].
  - exists [EvOpen a1; EvDecode a1; EvClose a1;
            EvMkdir (filepath_Dir w cwd +:+ "/" +:+ output g);
            EvChdir (filepath_Dir w cwd +:+ "/" +:+ output g);
            EvPrint rendering; EvProgress], img, err.
    split; [reflexivity |]. split; [exact Hp |].
    split; [rewrite Open_run; cbn [name]; rewrite Ho, Hd; reflexivity |].
    split; [intros s Hs; in_cases; congruence |].
    split; [intros ev He; in_cases; subst; reflexivity | reflexivity].
Qed.

Lemma main_processing (Args : list string) :
  EvProgress ∈ trace (main w Args) ->
  exists a0 a1 rest g pre img err,
    Args = a0 :: a1 :: rest /\
    flag_Parse w defaults rest = inl g /\
    outcome (Open w (mkFile a1)) = Returned (img, err) /\
    (forall s, EvPrint s ∈ pre -> s = rendering) /\
    main w Args =
    (mkRun pre (Returned tt);;
     process w g (mkFile a1) img;;
     emit (EvPrint done_message);;
     emit (EvPrint ("Rendered in: " +:+ elapsed w +:+ "s" +:+ nl))).
Proof.
  intros Hev. destruct (main_shape Args) as [Hq | Hs].
  - by destruct (Hq _ Hev).
  - destruct Hs as (a0 & a1 & rest & g & pre & img & err & H).
    exists a0, a1, rest, g, pre, img, err. tauto.
Qed.

(** Every Quantize call of a whole run is one of a [Quantify] on the parsed
    flags: the kernel is the library's NoDither or one of the table, the
    destination is over WebSafe, and the two booleans are the negated
    no-dither flag and true. *)
Lemma main_Quantize_calls (Args : list string)
    (q : Receiver) (s : option Image) (dst : Paletted) (nq : Z) (b1 b2 : bool) :
  EvQuantize q s dst nq b1 b2 ∈ trace (main w Args) ->
  exists g,
    flag_Parse w defaults (drop 2 Args) = inl g /\
    nq = numColors g /\ Palette dst = palette.WebSafe /\
    b1 = negb (noDither g) /\ b2 = true /\
    (if noDither g then q = NoDither
     else exists d, dither !! ditherer g = Some d /\ q = Kernel d).
Proof.
  intros Hev. destruct (main_shape Args) as [Hq | Hs].
  { by destruct (Hq _ Hev) as [_ [=]]. }
  destruct Hs as (a0 & a1 & rest & g & pre & img & err
                  & -> & Hp & _ & _ & Hpre & E).
  rewrite E in Hev. exists g. split; [exact Hp |].
  apply trace_bind_inv in Hev as [Hev | ([] & _ & Hev)].
  { by apply Hpre in Hev. }
  apply trace_bind_inv in Hev as [Hev | ([] & _ & Hev)].
  2:{ revert Hev. run_simpl. intros Hev. in_cases; discriminate. }
  assert (exists out, EvQuantize q s dst nq b1 b2
                        ∈ trace (Quantify w g (mkFile a1) img out))
    as [out Hq].
  { unfold process in Hev.
    apply trace_bind_inv in Hev as [Hev | ([] & _ & Hev)].
    - repeat case_decide; try destruct (noDither g);
        try (apply trace_bind_inv in Hev as [Hev | (r & _ & Hev)];
             [by eexists |]);
        revert Hev; run_simpl; intros Hev; in_cases.
    - revert Hev. run_simpl. intros Hev. in_cases. discriminate. }
  apply Quantify_call in Hq
    as (img' & _ & _ & -> & Hnew & -> & -> & Hk).
  apply NewPaletted_Some in Hnew as (_ & Hpal & _). auto.
Qed.

Lemma done_is_not_rendering : done_message <> rendering.
Proof. discriminate. Qed.

(** C4: with a palette of one colour [main] stops in [log.Fatal], with the
    message that the value cannot be less than 1, before any
    quantization. *)
Theorem main_rejects_single_colour (a0 a1 : string) (rest : list string)
    (g : Flags) :
  a1 <> "--help" -> a1 <> "-h" ->
  flag_Parse w defaults rest = inl g ->
  numColors g = 1 ->
  main w (a0 :: a1 :: rest) =
  mkRun (trace (Open w (mkFile a1)) ++ [EvLog palette_message]) (Exited 1) /\
  (forall e, e ∈ trace (main w (a0 :: a1 :: rest)) -> is_quantize e = false).
Proof.
  intros H1 H2 Hp Hn.
  assert (main w (a0 :: a1 :: rest) =
          mkRun (trace (Open w (mkFile a1)) ++ [EvLog palette_message])
                (Exited 1)) as E.
  { unfold main. rewrite decide_False by (intros [?|?]; contradiction).
    rewrite Hp, Hn.
    destruct (Open_returns (mkFile a1)) as (t & [img err] & -> & _).
    run_simpl. reflexivity. }
  split; [exact E |].
  rewrite E. cbn [trace]. intros e He.
  destruct (Open_returns (mkFile a1)) as (t & r & Ho & Ht).
  rewrite Ho in He. cbn [trace] in He.
  apply elem_of_app in He as [He | He].
  - destruct (Ht e He) as [-> | [-> | ->]]; reflexivity.
  - in_cases. subst. reflexivity.
Qed.

(** C6: [Open] hands the decoding error to [main], which drops it: with
    no image decoded the run goes on to the processing step and ends in
    the panic of a nil source, the error never reported. *)
Theorem main_drops_decode_error (a0 a1 : string) (rest : list string)
    (g : Flags) (err : error) (cwd : string) :
  a1 <> "--help" -> a1 <> "-h" ->
  flag_Parse w defaults rest = inl g ->
  os_Open w a1 = None ->
  image_Decode w a1 = (None, Some err) ->
  1 < numColors g ->
  filepath_Abs w (filepath_Dir w a1) = (cwd, None) ->
  imageType g = "jpg" ->
  Open w (mkFile a1) =
  mkRun [EvOpen a1; EvDecode a1; EvClose a1] (Returned (None, Some err)) /\
  main w (a0 :: a1 :: rest) =
  mkRun [EvOpen a1; EvDecode a1; EvClose a1;
         EvMkdir (filepath_Dir w cwd +:+ "/" +:+ output g);
         EvChdir (filepath_Dir w cwd +:+ "/" +:+ output g);
         EvPrint rendering; EvProgress]
        (Panicked nil_dereference).
Proof.
  intros H1 H2 Hp Ho Hd Hn Ha Ht.
  assert (Open w (mkFile a1) =
          mkRun [EvOpen a1; EvDecode a1; EvClose a1]
                (Returned (None, Some err))) as E.
  { rewrite Open_run. cbn [name]. rewrite Ho, Hd. reflexivity. }
  split; [exact E |].
  unfold main. rewrite decide_False by (intros [?|?]; contradiction).
  rewrite Hp, E. cbn [name]. run_simpl.
  destruct (Z.leb_spec (numColors g) 1); [lia |].
  rewrite Ha. unfold process, Quantify, Bounds_of.
  rewrite Ht. rewrite decide_True by reflexivity.
  destruct (noDither g); reflexivity.
Qed.


End main_facts.

(** ** Runs on the sample world *)

Lemma Quantify_validates_kernel_witness :
  noDither unknown_kernel = false /\
  dither !! ditherer unknown_kernel = None /\
  Quantify fair_world unknown_kernel (mkFile "in.png") (Some sample_image)
    "Bayer.jpg" =
  mkRun [EvNewPaletted (destination (image.Bounds sample_image)) palette.WebSafe;
         EvLog invalid_method] (Exited 1).
Proof.
  split; [reflexivity |]. split; [vm_compute; reflexivity |].
  destruct (Quantify_validates_kernel fair_world unknown_kernel
              (mkFile "in.png") (Some sample_image) "Bayer.jpg" eq_refl)
    as [_ H].
  destruct (H ltac:(vm_compute; reflexivity)) as [_ H'].
  exact H'.
Defined.

Lemma Quantify_trailing_flags_witness :
  EvQuantize (Kernel FloydSteinberg) (Some sample_image) sample_dst 256
    true true
  ∈ trace (Quantify fair_world defaults (mkFile "in.png") (Some sample_image)
             "FloydSteinberg.jpg") /\
  (true = negb (noDither defaults) /\ true = true /\
   (true = false <-> noDither defaults = true)).
Proof.
  assert (EvQuantize (Kernel FloydSteinberg) (Some sample_image) sample_dst
            256 true true
          ∈ trace (Quantify fair_world defaults (mkFile "in.png")
                     (Some sample_image) "FloydSteinberg.jpg")) as H
    by find_event.
  split; [exact H |].
  exact (Quantify_trailing_flags fair_world defaults (mkFile "in.png")
           (Some sample_image) "FloydSteinberg.jpg" _ _ _ _ _ _ H).
Defined.


Lemma Quantify_unrecognized_type_witness :
  imageType gif_flags <> "jpg" /\ imageType gif_flags <> "png" /\
  image.allocatable (destination (image.Bounds sample_image)) = true /\
  (noDither gif_flags = true \/ is_Some (dither !! ditherer gif_flags)) /\
  os_Create fair_world "FloydSteinberg.gif" = None /\
  exists q dst,
    let quant := Quantize fair_world q (Some sample_image) dst
                   (numColors gif_flags) (negb (noDither gif_flags)) true in
    Quantify fair_world gif_flags (mkFile "in.png") (Some sample_image)
      "FloydSteinberg.gif" =
    mkRun [EvNewPaletted (destination (image.Bounds sample_image))
             palette.WebSafe;
           EvQuantize q (Some sample_image) dst (numColors gif_flags)
             (negb (noDither gif_flags)) true;
           EvCreate "FloydSteinberg.gif"; EvClose "FloydSteinberg.gif"]
          (Returned (quant, None)) /\
    (forall e,
        e ∈ trace (Quantify fair_world gif_flags (mkFile "in.png")
                     (Some sample_image) "FloydSteinberg.gif") ->
        is_encode e = false).
Proof.
  assert (imageType gif_flags <> "jpg") as H1 by discriminate.
  assert (imageType gif_flags <> "png") as H2 by discriminate.
  assert (image.allocatable (destination (image.Bounds sample_image)) = true)
    as H3 by reflexivity.
  assert (noDither gif_flags = true \/ is_Some (dither !! ditherer gif_flags))
    as H4 by (right; exists FloydSteinberg; vm_compute; reflexivity).
  assert (os_Create fair_world "FloydSteinberg.gif" = None) as H5
    by reflexivity.
  repeat (split; [assumption |]).
  exact (Quantify_unrecognized_type fair_world gif_flags (mkFile "in.png")
           sample_image "FloydSteinberg.gif" H1 H2 H3 H4 H5).
Defined.

Lemma main_rejects_single_colour_witness :
  "in.png" <> "--help" /\ "in.png" <> "-h" /\
  flag_Parse fair_world defaults ["-palette"; "1"] = inl single_colour /\
  numColors single_colour = 1 /\
  main fair_world ["colorquant"; "in.png"; "-palette"; "1"] =
  mkRun [EvOpen "in.png"; EvDecode "in.png"; EvClose "in.png";
         EvLog palette_message] (Exited 1).
Proof.
  assert ("in.png" <> "--help") as H1 by discriminate.
  assert ("in.png" <> "-h") as H2 by discriminate.
  assert (flag_Parse fair_world defaults ["-palette"; "1"] = inl single_colour)
    as H3 by (vm_compute; reflexivity).
  assert (numColors single_colour = 1) as H4 by reflexivity.
  repeat (split; [assumption |]).
  exact (proj1 (main_rejects_single_colour fair_world "colorquant" "in.png"
                  ["-palette"; "1"] single_colour H1 H2 H3 H4)).
Defined.

Lemma main_drops_decode_error_witness :
  "in.txt" <> "--help" /\ "in.txt" <> "-h" /\
  flag_Parse undecodable_world defaults [] = inl defaults /\
  os_Open undecodable_world "in.txt" = None /\
  image_Decode undecodable_world "in.txt" =
    (None, Some "image: unknown format") /\
  1 < numColors defaults /\
  filepath_Abs undecodable_world (filepath_Dir undecodable_world "in.txt") =
    ("/home/user", None) /\
  imageType defaults = "jpg" /\
  main undecodable_world ["colorquant"; "in.txt"] =
  mkRun [EvOpen "in.txt"; EvDecode "in.txt"; EvClose "in.txt";
         EvMkdir "/home/user/output"; EvChdir "/home/user/output";
         EvPrint rendering; EvProgress]
        (Panicked nil_dereference).
Proof.
  assert ("in.txt" <> "--help") as H1 by discriminate.
  assert ("in.txt" <> "-h") as H2 by discriminate.
  assert (1 < numColors defaults) as H6 by reflexivity.
  repeat (split; [first [assumption | reflexivity] |]).
  exact (proj2 (main_drops_decode_error undecodable_world "colorquant"
                  "in.txt" [] defaults "image: unknown format" "/home/user"
                  H1 H2 eq_refl eq_refl eq_refl H6 eq_refl eq_refl)).
Defined.



(** The error of a failed [os.Create] is returned by [Quantify] and
    dropped by [main]: the run ends with the messages of completion. *)
Example done_after_failed_create :
  main read_only_world ["colorquant"; "in.png"] =
  mkRun [EvOpen "in.png"; EvDecode "in.png"; EvClose "in.png";
         EvMkdir "/home/user/output"; EvChdir "/home/user/output";
         EvPrint rendering; EvProgress;
         EvNewPaletted (destination (image.Bounds sample_image)) palette.WebSafe;
         EvQuantize (Kernel FloydSteinberg) (Some sample_image) sample_dst
           256 true true;
         EvCreate "FloydSteinberg.jpg"; EvDone;
         EvPrint done_message;
         EvPrint ("Rendered in: 0.01s" +:+ nl)]
        (Returned tt).
Proof. vm_compute. reflexivity. Qed.

(** * More of the program *)

(** ** Every way through [main] *)

Lemma main_paths (w : World) (Args : list string) : main_path w Args.
Proof.
  destruct Args as [|a0 [|a1 rest]].
  - apply path_usage; [left; simpl; lia | reflexivity].
  - apply path_usage; [left; simpl; lia | reflexivity].
  - unfold main.
    destruct (decide (a1 = "--help" \/ a1 = "-h")) as [Hh|Hh].
    { apply path_usage; [| unfold main; rewrite decide_True by done; reflexivity].
      right. destruct Hh as [-> | ->]; [left | right]; reflexivity. }
    assert (~ wants_usage (a0 :: a1 :: rest)) as Hu.
    { intros [Hl | [Hx | Hx]]; simpl in *; [lia | |];
        simplify_eq; apply Hh; auto. }
    destruct (flag_Parse w defaults rest) as [g|code] eqn:Hp.
    2:{ eapply path_flags; eauto. unfold main.
        rewrite decide_False by done. rewrite Hp. reflexivity. }
    destruct (Open_returns w (mkFile a1)) as (t & [img oerr] & Ho & _).
    destruct (Z.leb_spec (numColors g) 1) as [Hn | Hn].
    { eapply path_palette; eauto. unfold main.
      rewrite decide_False by done. rewrite Hp, Ho. run_simpl.
      destruct (Z.leb_spec (numColors g) 1); [reflexivity | lia]. }
    destruct (filepath_Abs w (filepath_Dir w a1)) as [cwd [e|]] eqn:Ha.
    { eapply path_abs; eauto. unfold main.
      rewrite decide_False by done. rewrite Hp, Ho. run_simpl.
      destruct (Z.leb_spec (numColors g) 1); [lia |].
      cbn [name]. rewrite Ha. reflexivity. }
    eapply path_process; eauto.
    { rewrite Ho. reflexivity. }
    unfold main. rewrite decide_False by done. rewrite Hp, Ho. run_simpl.
    destruct (Z.leb_spec (numColors g) 1); [lia |].
    cbn [name]. rewrite Ha. unfold setup_events, rendered_message.
    rewrite <- app_assoc. reflexivity.
Qed.

(** ** Runs that end in the log *)

Lemma bind_outcome_returned {A B} (m : Run A) (k : A -> Run B) (b : B) :
  outcome (m ≫= k) = Returned b ->
  exists a, outcome m = Returned a /\ outcome (k a) = Returned b /\
            trace (m ≫= k) = trace m ++ trace (k a).
Proof.
  unfold mbind, Run_bind.
  destruct (outcome m) as [a| |]; cbn [outcome trace]; [eauto | done | done].
Qed.

(** If every message in the log of [m] and of its continuation is fatal,
    then so is every message in the log of [m ≫= k]. *)
Lemma fatal_bind {A B} (m : Run A) (k : A -> Run B) (s : string) :
  (forall s', EvLog s' ∈ trace m -> fatal m s') ->
  (forall a s', EvLog s' ∈ trace (k a) -> fatal (k a) s') ->
  EvLog s ∈ trace (m ≫= k) -> fatal (m ≫= k) s.
Proof.
  intros Hm Hk He.
  apply trace_bind_inv in He as [He | (a & Ha & He)].
  - destruct (Hm _ He) as [Ho Hl]. rewrite (bind_exited _ _ _ Ho).
    split; [reflexivity | exact Hl].
  - destruct (Hk _ _ He) as [Ho Hl]. rewrite (bind_returned _ _ _ Ha).
    split; [exact Ho |]. cbn [trace]. apply last_app_Some. by left.
Qed.

(** ** More on [Open] and [Quantify] *)

Section wrapper_facts.
Import image.
Variables (w : World) (g : Flags) (f : file).

(** X1: [Open] reports an error exactly when [os.Open] or [image.Decode]
    did; a file that was opened is closed last of all, also when decoding
    it failed, and a file that could not be opened is neither decoded nor
    closed. *)
Theorem Open_closes_and_reports (img : option Image) (err : option error) :
  outcome (Open w f) = Returned (img, err) ->
  (err = None <->
   os_Open w (name f) = None /\ (image_Decode w (name f)).2 = None) /\
  (os_Open w (name f) = None ->
   (img, err) = image_Decode w (name f) /\
   trace (Open w f) = [EvOpen (name f); EvDecode (name f); EvClose (name f)]) /\
  (os_Open w (name f) <> None ->
   img = None /\ err = os_Open w (name f) /\ trace (Open w f) = [EvOpen (name f)]).
Proof.
  rewrite Open_run.
  destruct (os_Open w (name f)) as [e|] eqn:Ho; cbn [outcome trace].
  - intros [= <- <-]. split; [| split].
    + split; [discriminate | intros [[=] _]].
    + discriminate.
    + auto.
  - intros [= Hd]. rewrite Hd. cbn [snd]. split; [| split].
    + split; [auto | tauto].
    + auto.
    + intros H. by destruct H.
Qed.

(** The events of [Quantify]: its library calls, the log, and the creation
    and closing of the file it was given. *)
Lemma Quantify_events (src : option Image) (out : string) (e : Event) :
  e ∈ trace (Quantify w g f src out) ->
  match e with
  | EvNewPaletted _ _ | EvQuantize _ _ _ _ _ _ | EvLog _ => True
  | EvJpegEncode o _ _ | EvPngEncode o _ | EvCreate o | EvClose o => o = out
  | _ => False
  end.
Proof.
  Quantify_cases w g src out; intros He; in_cases; subst; done.
Qed.

(** X2: [Quantify] creates its output file only after the quantization: the
    run then starts with the allocation of the destination, the Quantize
    call and the creation, in this order. *)
Theorem Quantify_creates_after_Quantize (src : option Image) (out o : string) :
  EvCreate o ∈ trace (Quantify w g f src out) ->
  o = out /\
  exists img q dst rest,
    src = Some img /\
    trace (Quantify w g f src out) =
    EvNewPaletted (destination (Bounds img)) palette.WebSafe ::
    EvQuantize q src dst (numColors g) (negb (noDither g)) true ::
    EvCreate out :: rest.
Proof.
  Quantify_cases w g src out; intros He; in_cases; simplify_eq;
    (split; [reflexivity |]); do 4 eexists; (split; [reflexivity |]);
    reflexivity.
Qed.

(** X3: the only error that [Quantify] returns is the one of [os.Create],
    and then it returns no image; otherwise it returns the result of its
    Quantize call with a nil error.  A failed encoding and an unknown
    kernel never come back as a return value. *)
Theorem Quantify_returns_only_create_error (src : option Image) (out : string)
    (quant : option Image) (err : option error) :
  outcome (Quantify w g f src out) = Returned (quant, err) ->
  (os_Create w out = err /\ err <> None /\ quant = None) \/
  (os_Create w out = None /\ err = None /\
   exists q dst,
     EvQuantize q src dst (numColors g) (negb (noDither g)) true
       ∈ trace (Quantify w g f src out) /\
     quant = Quantize w q src dst (numColors g) (negb (noDither g)) true).
Proof.
  Quantify_cases w g src out; intros Hr; simplify_eq;
    try (left; split; [reflexivity | split; [discriminate | reflexivity]]; fail);
    right; (split; [reflexivity |]); (split; [reflexivity |]);
    do 2 eexists; (split; [find_in | ]); try reflexivity;
    symmetry; eassumption.
Qed.

(** X4: the output file is closed exactly when it was created and the run
    does not end in [log.Fatal]: a failed encoding leaves the created
    file open, while a return and a panic both close it. *)
Theorem Quantify_closes_created_file (src : option Image) (out o : string) :
  EvClose o ∈ trace (Quantify w g f src out) <->
  o = out /\ os_Create w out = None /\
  EvCreate out ∈ trace (Quantify w g f src out) /\
  (forall c, outcome (Quantify w g f src out) <> Exited c).
Proof.
  Quantify_cases w g src out;
    (split;
     [ intros He; in_cases; simplify_eq;
       repeat split; first [find_in | discriminate | reflexivity]
     | intros (-> & Hn & Hc & Hx);
       first [ discriminate Hn
             | find_in
             | by destruct (Hx 1)
             | in_cases; discriminate ] ]).
Qed.

(** X5: an encoder is called only for its own image type, on the file
    that was created and on the result of the Quantize call; the JPEG
    encoder gets the compression flag as it is, whatever its value. *)
Theorem Quantify_encoder_choice (src : option Image) (out : string)
    (e : Event) :
  e ∈ trace (Quantify w g f src out) -> is_encode e = true ->
  os_Create w out = None /\
  (exists q dst,
     EvQuantize q src dst (numColors g) (negb (noDither g)) true
       ∈ trace (Quantify w g f src out) /\
     let quant := Quantize w q src dst (numColors g) (negb (noDither g)) true in
     (imageType g = "jpg" /\ e = EvJpegEncode out quant (compression g)) \/
     (imageType g <> "jpg" /\ imageType g = "png" /\
      e = EvPngEncode out quant)).
Proof.
  Quantify_cases w g src out; intros He Henc; in_cases; simplify_eq;
    (split; [reflexivity |]); do 2 eexists; (split; [find_in |]);
    cbn zeta;
    first [ left; split; [assumption |]; f_equal; symmetry; eassumption
          | right; split; [assumption |]; split; [assumption |];
            f_equal; symmetry; eassumption ].
Qed.

(** The encoder events of [Quantify], by image type. *)
Lemma Quantify_encode_event (src : option Image) (out : string) (e : Event) :
  e ∈ trace (Quantify w g f src out) ->
  match e with
  | EvJpegEncode _ _ quality =>
      imageType g = "jpg" /\ quality = compression g
  | EvPngEncode _ _ => imageType g <> "jpg" /\ imageType g = "png"
  | _ => True
  end.
Proof.
  Quantify_cases w g src out; intros He; in_cases; subst; done.
Qed.

(** A message in the log of [Quantify] is the end of the run. *)
Lemma Quantify_log_fatal (src : option Image) (out s : string) :
  EvLog s ∈ trace (Quantify w g f src out) ->
  fatal (Quantify w g f src out) s.
Proof.
  unfold fatal.
  Quantify_cases w g src out; intros He; in_cases; simplify_eq;
    split; reflexivity.
Qed.

End wrapper_facts.

(** ** More on [main] *)

Section driver_facts.
Import image.
Variable w : World.

(** The four calls of the processing step are one call, on [output_name]. *)
Lemma process_run (g : Flags) (f : file) (img : option Image) :
  process w g f img =
  ((if decide (imageType g = "jpg" \/ imageType g = "png")
    then Quantify w g f img (output_name g);; mret tt
    else mret tt);;
   emit EvDone).
Proof.
  unfold process, output_name.
  destruct (decide (imageType g = "jpg")) as [Hj|Hj].
  - rewrite decide_True by auto. rewrite Hj.
    destruct (noDither g); reflexivity.
  - destruct (decide (imageType g = "png")) as [Hp|Hp].
    + rewrite decide_True by auto. rewrite Hp.
      destruct (noDither g); reflexivity.
    + rewrite decide_False by tauto. reflexivity.
Qed.

Lemma process_events (g : Flags) (f : file) (img : option Image) (e : Event) :
  e ∈ trace (process w g f img) ->
  e = EvDone \/
  ((imageType g = "jpg" \/ imageType g = "png") /\
   e ∈ trace (Quantify w g f img (output_name g))).
Proof.
  rewrite process_run. intros He.
  apply trace_bind_inv in He as [He | (a & _ & He)].
  - case_decide.
    + apply trace_bind_inv in He as [He | (r & _ & He)]; [by right |].
      revert He. run_simpl. intros He. in_cases.
    + revert He. run_simpl. intros He. in_cases.
  - revert He. run_simpl. intros He. in_cases. by left.
Qed.

(** The events of a whole run, by the way through [main]. *)
Lemma main_events (Args : list string) (e : Event) :
  e ∈ trace (main w Args) ->
  (wants_usage Args /\ e = EvPrint (helper +:+ nl)) \/
  (exists a0 a1 rest g,
     Args = a0 :: a1 :: rest /\ ~ wants_usage Args /\
     flag_Parse w defaults rest = inl g /\
     (e ∈ trace (Open w (mkFile a1)) \/
      (numColors g <= 1 /\ e = EvLog palette_message) \/
      (1 < numColors g /\
       exists cwd,
         (exists err, filepath_Abs w (filepath_Dir w a1) = (cwd, Some err) /\
                      e = EvLog err) \/
         (filepath_Abs w (filepath_Dir w a1) = (cwd, None) /\
          (e ∈ setup_events (filepath_Dir w cwd +:+ "/" +:+ output g) \/
           (exists img oerr,
              outcome (Open w (mkFile a1)) = Returned (img, oerr) /\
              e ∈ trace (process w g (mkFile a1) img)) \/
           e = EvPrint done_message \/
           e = EvPrint (rendered_message w)))))).
Proof.
  intros He.
  destruct (main_paths w Args)
    as [Hu E | a0 a1 rest code -> Hu Hp E | a0 a1 rest g -> Hu Hp Hn E
        | a0 a1 rest g cwd err -> Hu Hp Hn Ha E
        | a0 a1 rest g cwd img oerr -> Hu Hp Hn Ha Ho E];
    rewrite E in He; clear E.
  - left. cbn [trace] in He. in_cases. auto.
  - cbn [trace] in He. in_cases.
  - right. exists a0, a1, rest, g. repeat (split; [done |]).
    cbn [trace] in He. in_cases; subst; auto.
  - right. exists a0, a1, rest, g. repeat (split; [done |]).
    cbn [trace] in He. in_cases; subst; [auto |].
    right. right. split; [done |]. exists cwd. left. eauto.
  - right. exists a0, a1, rest, g. repeat (split; [done |]).
    apply trace_bind_inv in He as [He | ([] & _ & He)].
    { cbn [trace] in He. apply elem_of_app in He as [He | He]; [auto |].
      right. right. split; [done |]. exists cwd. right. auto. }
    right. right. split; [done |]. exists cwd. right. split; [done |].
    apply trace_bind_inv in He as [He | ([] & _ & He)]; [eauto 6 |].
    apply trace_bind_inv in He as [He | ([] & _ & He)];
      revert He; run_simpl; intros He; in_cases; subst; auto.
Qed.

(** An event of [Quantify] in a whole run comes from the one call that the
    processing step makes, past both checks of [main]. *)
Lemma main_Quantify_events (Args : list string) (e : Event) :
  e ∈ trace (main w Args) -> from_Quantify e = true ->
  exists a0 a1 rest g cwd img oerr,
    Args = a0 :: a1 :: rest /\
    flag_Parse w defaults rest = inl g /\
    1 < numColors g /\
    filepath_Abs w (filepath_Dir w a1) = (cwd, None) /\
    outcome (Open w (mkFile a1)) = Returned (img, oerr) /\
    (imageType g = "jpg" \/ imageType g = "png") /\
    e ∈ trace (Quantify w g (mkFile a1) img (output_name g)).
Proof.
  intros He Hq.
  apply main_events in He
    as [[_ ->] | (a0 & a1 & rest & g & -> & _ & Hp & He)]; [discriminate |].
  destruct He as [He | [[_ ->] | (Hn & cwd & He)]]; [| discriminate |].
  { destruct (Open_returns w (mkFile a1)) as (t & r & Ho & Ht).
    rewrite Ho in He. apply Ht in He as [-> | [-> | ->]]; discriminate. }
  destruct He as [(err & _ & ->) | (Ha & He)]; [discriminate |].
  destruct He as [He | [(img & oerr & Ho & He) | [-> | ->]]];
    try discriminate.
  { unfold setup_events in He. in_cases; subst; discriminate. }
  apply process_events in He as [-> | [Ht He]]; [discriminate |].
  exists a0, a1, rest, g, cwd, img, oerr. auto 10.
Qed.

Lemma helper_first_char : exists s, helper +:+ nl = String "010"%char s.
Proof. eexists. reflexivity. Qed.

Lemma helper_is_not_done : helper +:+ nl <> done_message.
Proof. discriminate. Qed.

(** X6: [main] prints its usage text exactly when it is given no input file
    or is asked for help, and then it does nothing else and exits with
    status 1. *)
Theorem main_usage (Args : list string) :
  (wants_usage Args <-> EvPrint (helper +:+ nl) ∈ trace (main w Args)) /\
  (wants_usage Args ->
   main w Args = mkRun [EvPrint (helper +:+ nl)] (Exited 1)).
Proof.
  assert (wants_usage Args ->
          main w Args = mkRun [EvPrint (helper +:+ nl)] (Exited 1)) as Hrun.
  { intros Hu. by destruct (main_paths w Args). }
  split; [| exact Hrun]. split.
  - intros Hu. rewrite (Hrun Hu). apply list_elem_of_here.
  - intros He.
    apply main_events in He
      as [[Hu _] | (a0 & a1 & rest & g & -> & _ & _ & He)]; [exact Hu |].
    exfalso.
    destruct He as [He | [[_ [=]] | (_ & cwd & He)]].
    { destruct (Open_returns w (mkFile a1)) as (t & r & Ho & Ht).
      rewrite Ho in He. apply Ht in He as [? | [? | ?]]; discriminate. }
    destruct He as [(err & _ & [=]) | (_ & He)].
    destruct He as [He | [(img & oerr & _ & He) | [He | He]]].
    + destruct helper_first_char as [h Hh]. rewrite Hh in He.
      unfold setup_events in He. in_cases; discriminate.
    + apply process_silent in He as [He _]. by eapply He.
    + apply helper_is_not_done. congruence.
    + destruct helper_first_char as [h Hh]. rewrite Hh in He.
      discriminate He.
Qed.

(** X7: the only file that [main] opens and decodes is its first argument,
    and only once the flags are parsed. *)
Theorem main_opens_only_first_argument (Args : list string) (p : string) :
  EvOpen p ∈ trace (main w Args) \/ EvDecode p ∈ trace (main w Args) ->
  Args !! 1%nat = Some p /\ ~ wants_usage Args /\
  exists g, flag_Parse w defaults (drop 2 Args) = inl g.
Proof.
  assert (forall e, e ∈ trace (main w Args) -> e = EvOpen p \/ e = EvDecode p ->
            Args !! 1%nat = Some p /\ ~ wants_usage Args /\
            exists g, flag_Parse w defaults (drop 2 Args) = inl g) as H.
  { intros e He Hk.
    apply main_events in He
      as [[_ ->] | (a0 & a1 & rest & g & -> & Hu & Hp & He)];
      [by destruct Hk |].
    destruct He as [He | [[_ ->] | (_ & cwd & He)]]; [| by destruct Hk |].
    { destruct (Open_returns w (mkFile a1)) as (t & r & Ho & Ht).
      rewrite Ho in He. cbn [trace name] in *.
      apply Ht in He as [-> | [-> | ->]]; destruct Hk as [[=] | [=]]; subst;
        eauto. }
    destruct He as [(err & _ & ->) | (_ & He)]; [by destruct Hk |].
    destruct He as [He | [(img & oerr & _ & He) | [-> | ->]]];
      try by destruct Hk.
    - unfold setup_events in He. in_cases; subst; by destruct Hk.
    - apply process_events in He as [-> | [_ He]]; [by destruct Hk |].
      apply Quantify_events in He. by destruct Hk as [-> | ->]. }
  intros [He | He]; eapply H; eauto.
Qed.

(** X8: every Quantize call of a run is made on the image that
    [image.Decode] returned for the first argument, also when the decoder
    reported an error with it, and asks for at least two colours. *)
Theorem main_Quantize_guard (Args : list string)
    (q : Receiver) (s : option Image) (dst : Paletted) (nq : Z) (b1 b2 : bool) :
  EvQuantize q s dst nq b1 b2 ∈ trace (main w Args) ->
  2 <= nq /\
  exists a1 img oerr,
    Args !! 1%nat = Some a1 /\ os_Open w a1 = None /\
    image_Decode w a1 = (Some img, oerr) /\ s = Some img.
Proof.
  intros He. apply main_Quantify_events in He
    as (a0 & a1 & rest & g & cwd & img & oerr & -> & _ & Hn & _ & Ho & _ & He);
    [| reflexivity].
  apply Quantify_call in He as (im & -> & -> & -> & _).
  split; [lia |]. exists a1, im, oerr. split; [reflexivity |].
  rewrite Open_run in Ho. cbn [name] in Ho.
  destruct (os_Open w a1); cbn [outcome] in Ho; [discriminate Ho |].
  by injection Ho as Ho.
Qed.

(** X9: a file that a run creates is named after the mode and the image
    type: [output.jpg] or [output.png] without dithering, the name of the
    ditherer with the same extensions otherwise. *)
Theorem main_output_file_name (Args : list string) (o : string) :
  EvCreate o ∈ trace (main w Args) ->
  exists g,
    flag_Parse w defaults (drop 2 Args) = inl g /\
    (imageType g = "jpg" \/ imageType g = "png") /\
    o = (if noDither g then "output" else ditherer g) +:+ "." +:+ imageType g.
Proof.
  intros He. apply main_Quantify_events in He
    as (a0 & a1 & rest & g & cwd & img & oerr & -> & Hp & _ & _ & _ & Ht & He);
    [| reflexivity].
  apply Quantify_events in He. exists g. auto.
Qed.

Lemma process_log_fatal (g : Flags) (f : file) (img : option Image)
    (s : string) :
  EvLog s ∈ trace (process w g f img) -> fatal (process w g f img) s.
Proof.
  rewrite process_run. apply fatal_bind.
  - intros s'. case_decide.
    + apply fatal_bind; [apply Quantify_log_fatal |].
      intros a s''. run_simpl. intros He. in_cases.
    + run_simpl. intros He. in_cases.
  - intros a s'. run_simpl. intros He. in_cases. discriminate.
Qed.

(** X10: every message that a run writes to the log is fatal: it is the last
    event of the run, which exits with status 1. *)
Theorem main_log_is_fatal (Args : list string) (s : string) :
  EvLog s ∈ trace (main w Args) ->
  outcome (main w Args) = Exited 1 /\
  last (trace (main w Args)) = Some (EvLog s).
Proof.
  intros He. change (fatal (main w Args) s).
  assert (forall f e, e ∈ trace (Open w f) -> forall s', e <> EvLog s') as Hopen.
  { intros f e Hin s'. destruct (Open_returns w f) as (t & r & Ho & Ht).
    rewrite Ho in Hin. apply Ht in Hin as [-> | [-> | ->]]; discriminate. }
  destruct (main_paths w Args)
    as [Hu E | a0 a1 rest code -> Hu Hp E | a0 a1 rest g -> Hu Hp Hn E
        | a0 a1 rest g cwd err -> Hu Hp Hn Ha E
        | a0 a1 rest g cwd img oerr -> Hu Hp Hn Ha Ho E];
    rewrite E in He |- *; clear E.
  - cbn [trace] in He. in_cases. discriminate.
  - cbn [trace] in He. in_cases.
  - cbn [trace] in He. apply elem_of_app in He as [He | He].
    { by destruct (Hopen _ _ He s). }
    in_cases. simplify_eq. split; [reflexivity | apply last_snoc].
  - cbn [trace] in He. apply elem_of_app in He as [He | He].
    { by destruct (Hopen _ _ He s). }
    in_cases. simplify_eq. split; [reflexivity | apply last_snoc].
  - revert He. apply fatal_bind.
    { intros s'. cbn [trace]. intros He.
      apply elem_of_app in He as [He | He]; [by destruct (Hopen _ _ He s') |].
      unfold setup_events in He. in_cases; discriminate. }
    intros [] s'. apply fatal_bind; [apply process_log_fatal |].
    intros [] s''. run_simpl. intros He. in_cases; discriminate.
Qed.

(** X11: a run that returns has gone through the processing step, and the
    last things it did were to stop the progress dots and to print the two
    lines of completion. *)
Theorem main_returns_after_completion (Args : list string) :
  outcome (main w Args) = Returned tt ->
  EvProgress ∈ trace (main w Args) /\
  exists t,
    trace (main w Args) =
    t ++ [EvDone; EvPrint done_message; EvPrint (rendered_message w)].
Proof.
  intros Hr.
  destruct (main_paths w Args)
    as [Hu E | a0 a1 rest code -> Hu Hp E | a0 a1 rest g -> Hu Hp Hn E
        | a0 a1 rest g cwd err -> Hu Hp Hn Ha E
        | a0 a1 rest g cwd img oerr -> Hu Hp Hn Ha Ho E];
    rewrite E in Hr |- *; clear E; try discriminate Hr.
  split.
  { apply trace_bind_l. cbn [trace]. apply elem_of_app. right.
    unfold setup_events. find_in. }
  apply bind_outcome_returned in Hr as ([] & _ & Hr & ->).
  apply bind_outcome_returned in Hr as ([] & Hp' & _ & ->).
  rewrite process_run in Hp' |- *.
  apply bind_outcome_returned in Hp' as ([] & _ & _ & ->).
  cbn [trace]. run_simpl.
  match goal with
  | |- exists t, ?a ++ (?x ++ [EvDone]) ++ _ = _ => exists (a ++ x)
  end.
  rewrite <- !app_assoc. reflexivity.
Qed.

(** X12: the directory that a run creates is the one it changes into: the
    output name under the parent of the absolute directory of the input
    file. *)
Theorem main_output_directory (Args : list string) (d : string) :
  EvMkdir d ∈ trace (main w Args) \/ EvChdir d ∈ trace (main w Args) ->
  (EvMkdir d ∈ trace (main w Args) /\ EvChdir d ∈ trace (main w Args)) /\
  exists a1 g cwd,
    Args !! 1%nat = Some a1 /\
    flag_Parse w defaults (drop 2 Args) = inl g /\
    filepath_Abs w (filepath_Dir w a1) = (cwd, None) /\
    d = filepath_Dir w (filepath_Abs w (filepath_Dir w a1)).1
        +:+ "/" +:+ output g.
Proof.
  intros Hd.
  assert (exists e, e ∈ trace (main w Args) /\ (e = EvMkdir d \/ e = EvChdir d))
    as (e & He & Hk) by (destruct Hd; eauto).
  clear Hd.
  apply main_events in He
    as [[_ ->] | (a0 & a1 & rest & g & -> & Hu & Hp & He)];
    [by destruct Hk |].
  destruct He as [He | [[_ ->] | (Hn & cwd & He)]]; [| by destruct Hk |].
  { destruct (Open_returns w (mkFile a1)) as (t & r & Ho & Ht).
    rewrite Ho in He. apply Ht in He as [-> | [-> | ->]]; by destruct Hk. }
  destruct He as [(err & _ & ->) | (Ha & He)]; [by destruct Hk |].
  assert (d = filepath_Dir w cwd +:+ "/" +:+ output g) as ->.
  { destruct He as [He | [(img & oerr & _ & He) | [-> | ->]]];
      try by destruct Hk.
    - unfold setup_events in He. in_cases; subst; destruct Hk; congruence.
    - apply process_events in He as [-> | [_ He]]; [by destruct Hk |].
      apply Quantify_events in He. by destruct Hk as [-> | ->]. }
  split.
  - destruct (main_paths w (a0 :: a1 :: rest))
      as [Hu' E | ? ? ? code [= <- <- <-] _ Hp' E
          | ? ? ? g' [= <- <- <-] _ Hp' Hn' E
          | ? ? ? g' cwd' err [= <- <- <-] _ Hp' Hn' Ha' E
          | ? ? ? g' cwd' img oerr [= <- <- <-] _ Hp' Hn' Ha' Ho E];
      try done; try congruence.
    + assert (g' = g) as -> by congruence. lia.
    + rewrite E. assert (g' = g) as -> by congruence.
      assert (cwd' = cwd) as -> by congruence.
      split; apply trace_bind_l; cbn [trace]; apply elem_of_app; right;
        unfold setup_events; find_in.
  - exists a1, g, cwd. rewrite Ha. auto.
Qed.

(** X13: with an image type other than jpg and png a run that passes the
    checks of [main] calls nothing of the quantizer, creates no file, and
    still ends with the messages of completion, whether or not the input
    could be decoded. *)
Theorem main_unrecognized_type (a0 a1 : string) (rest : list string)
    (g : Flags) (cwd : string) :
  a1 <> "--help" -> a1 <> "-h" ->
  flag_Parse w defaults rest = inl g ->
  1 < numColors g ->
  filepath_Abs w (filepath_Dir w a1) = (cwd, None) ->
  imageType g <> "jpg" -> imageType g <> "png" ->
  main w (a0 :: a1 :: rest) =
  mkRun (trace (Open w (mkFile a1)) ++
         setup_events (filepath_Dir w cwd +:+ "/" +:+ output g) ++
         [EvDone; EvPrint done_message; EvPrint (rendered_message w)])
        (Returned tt).
Proof.
  intros H1 H2 Hp Hn Ha Hj Hg.
  unfold main. rewrite decide_False by (intros [?|?]; contradiction).
  rewrite Hp.
  destruct (Open_returns w (mkFile a1)) as (t & [img oerr] & -> & _).
  run_simpl. destruct (Z.leb_spec (numColors g) 1); [lia |].
  cbn [name]. rewrite Ha. rewrite process_run.
  rewrite decide_False by tauto. run_simpl. reflexivity.
Qed.

(** X14: the run in which nothing fails, in dithering mode and with the
    jpg type: the input is opened, decoded and closed, the output
    directory is entered, the image is quantized with the kernel of the
    table, then the output file is created, encoded into and closed,
    and the messages of completion end the run. *)
Theorem main_successful_run (a0 a1 : string) (rest : list string)
    (g : Flags) (cwd : string) (img : Image) (oerr : option error)
    (d : Dither) (dst : Paletted) (m : Image) :
  a1 <> "--help" -> a1 <> "-h" ->
  flag_Parse w defaults rest = inl g ->
  os_Open w a1 = None ->
  image_Decode w a1 = (Some img, oerr) ->
  1 < numColors g ->
  filepath_Abs w (filepath_Dir w a1) = (cwd, None) ->
  imageType g = "jpg" -> noDither g = false ->
  dither !! ditherer g = Some d ->
  NewPaletted (destination (Bounds img)) palette.WebSafe = Some dst ->
  Quantize w (Kernel d) (Some img) dst (numColors g) true true = Some m ->
  os_Create w (ditherer g +:+ ".jpg") = None ->
  jpeg_Encode w (ditherer g +:+ ".jpg") m (compression g) = None ->
  main w (a0 :: a1 :: rest) =
  mkRun [EvOpen a1; EvDecode a1; EvClose a1;
         EvMkdir (filepath_Dir w cwd +:+ "/" +:+ output g);
         EvChdir (filepath_Dir w cwd +:+ "/" +:+ output g);
         EvPrint rendering; EvProgress;
         EvNewPaletted (destination (Bounds img)) palette.WebSafe;
         EvQuantize (Kernel d) (Some img) dst (numColors g) true true;
         EvCreate (ditherer g +:+ ".jpg");
         EvJpegEncode (ditherer g +:+ ".jpg") (Some m) (compression g);
         EvClose (ditherer g +:+ ".jpg");
         EvDone; EvPrint done_message; EvPrint (rendered_message w)]
        (Returned tt).
Proof.
  intros H1 H2 Hp Ho Hd Hn Ha Hj Hnd Hk Hnew Hq Hc He.
  assert (Quantify w g (mkFile a1) (Some img) (ditherer g +:+ ".jpg") =
          mkRun [EvNewPaletted (destination (Bounds img)) palette.WebSafe;
                 EvQuantize (Kernel d) (Some img) dst (numColors g) true true;
                 EvCreate (ditherer g +:+ ".jpg");
                 EvJpegEncode (ditherer g +:+ ".jpg") (Some m) (compression g);
                 EvClose (ditherer g +:+ ".jpg")]
                (Returned (Some m, None))) as EQ.
  { unfold Quantify, Bounds_of, new_paletted, call_Quantize, call_jpeg_Encode.
    run_simpl. fold (destination (Bounds img)). rewrite Hnew. run_simpl.
    rewrite Hnd, Hk. run_simpl. rewrite Hc. run_simpl.
    rewrite decide_True by exact Hj. run_simpl. rewrite Hq. run_simpl.
    rewrite He. reflexivity. }
  assert (process w g (mkFile a1) (Some img) =
          mkRun [EvNewPaletted (destination (Bounds img)) palette.WebSafe;
                 EvQuantize (Kernel d) (Some img) dst (numColors g) true true;
                 EvCreate (ditherer g +:+ ".jpg");
                 EvJpegEncode (ditherer g +:+ ".jpg") (Some m) (compression g);
                 EvClose (ditherer g +:+ ".jpg"); EvDone]
                (Returned tt)) as EP.
  { unfold process. rewrite decide_True by exact Hj. rewrite Hnd, EQ.
    reflexivity. }
  unfold main. rewrite decide_False by (intros [?|?]; contradiction).
  rewrite Hp, Open_run. cbn [name]. rewrite Ho, Hd. run_simpl.
  destruct (Z.leb_spec (numColors g) 1); [lia |].
  rewrite Ha, EP. reflexivity.
Qed.

(** X15: a run on the default flags quantizes with the FloydSteinberg
    kernel of the table and 256 colours, writes to FloydSteinberg.jpg,
    and encodes as JPEG with quality 100. *)
Theorem main_default_invocation (a0 a1 : string) (e : Event) :
  flag_Parse w defaults [] = inl defaults ->
  e ∈ trace (main w [a0; a1]) ->
  match e with
  | EvQuantize q _ _ nq b1 b2 =>
      q = Kernel FloydSteinberg /\ nq = 256 /\ b1 = true /\ b2 = true
  | EvCreate o => o = "FloydSteinberg.jpg"
  | EvJpegEncode o _ quality => o = "FloydSteinberg.jpg" /\ quality = 100
  | EvPngEncode _ _ => False
  | _ => True
  end.
Proof.
  intros Hp He.
  destruct (from_Quantify e) eqn:Hq; [| by destruct e].
  apply main_Quantify_events in He
    as (? & ? & ? & g & cwd & img & oerr & [= <- <- <-] & Hp' & _ & _ & _ & _ & He);
    [| exact Hq].
  assert (g = defaults) as -> by congruence.
  pose proof (Quantify_events _ _ _ _ _ _ He) as Hev.
  pose proof (Quantify_encode_event _ _ _ _ _ _ He) as Hen.
  destruct e; try done.
  - apply Quantify_call in He as (im & _ & _ & -> & _ & -> & -> & Hk).
    change (exists d, dither !! ditherer defaults = Some d /\ q = Kernel d)
      in Hk.
    destruct Hk as (d & Hd & ->).
    assert (dither !! ditherer defaults = Some FloydSteinberg) as Hf
      by (vm_compute; reflexivity).
    assert (d = FloydSteinberg) as -> by congruence.
    auto.
  - destruct Hen as [_ ->]. auto.
  - by destruct Hen as [[] _].
Qed.

End driver_facts.

(** ** More runs on the sample world *)

Lemma Open_closes_and_reports_witness :
  outcome (Open undecodable_world (mkFile "in.txt")) =
    Returned (None, Some "image: unknown format") /\
  trace (Open undecodable_world (mkFile "in.txt")) =
    [EvOpen "in.txt"; EvDecode "in.txt"; EvClose "in.txt"].
Proof.
  assert (outcome (Open undecodable_world (mkFile "in.txt")) =
          Returned (None, Some "image: unknown format")) as H by reflexivity.
  split; [exact H |].
  destruct (Open_closes_and_reports undecodable_world (mkFile "in.txt")
              None (Some "image: unknown format") H) as (_ & Hc & _).
  exact (proj2 (Hc eq_refl)).
Defined.

Lemma Quantify_creates_after_Quantize_witness :
  EvCreate "FloydSteinberg.jpg"
    ∈ trace (Quantify fair_world defaults (mkFile "in.png")
               (Some sample_image) "FloydSteinberg.jpg") /\
  "FloydSteinberg.jpg" = "FloydSteinberg.jpg".
Proof.
  assert (EvCreate "FloydSteinberg.jpg"
            ∈ trace (Quantify fair_world defaults (mkFile "in.png")
                       (Some sample_image) "FloydSteinberg.jpg")) as H
    by find_event.
  split; [exact H |].
  exact (proj1 (Quantify_creates_after_Quantize fair_world defaults
                  (mkFile "in.png") (Some sample_image) "FloydSteinberg.jpg"
                  "FloydSteinberg.jpg" H)).
Defined.

Lemma Quantify_returns_only_create_error_witness :
  outcome (Quantify read_only_world defaults (mkFile "in.png")
             (Some sample_image) "FloydSteinberg.jpg") =
    Returned (None, Some "permission denied") /\
  os_Create read_only_world "FloydSteinberg.jpg" = Some "permission denied".
Proof.
  assert (outcome (Quantify read_only_world defaults (mkFile "in.png")
                     (Some sample_image) "FloydSteinberg.jpg") =
          Returned (None, Some "permission denied")) as H
    by (vm_compute; reflexivity).
  split; [exact H |].
  destruct (Quantify_returns_only_create_error read_only_world defaults
              (mkFile "in.png") (Some sample_image) "FloydSteinberg.jpg"
              None (Some "permission denied") H)
    as [(Hc & _ & _) | (_ & Hn & _)]; [exact Hc | discriminate Hn].
Defined.

(** A failed encoding leaves the created file open. *)
Lemma Quantify_closes_created_file_witness :
  EvCreate "FloydSteinberg.jpg"
    ∈ trace (Quantify failing_encoder_world defaults (mkFile "in.png")
               (Some sample_image) "FloydSteinberg.jpg") /\
  EvClose "FloydSteinberg.jpg"
    ∉ trace (Quantify failing_encoder_world defaults (mkFile "in.png")
               (Some sample_image) "FloydSteinberg.jpg").
Proof.
  split; [find_event |].
  intros H.
  apply (Quantify_closes_created_file failing_encoder_world defaults
           (mkFile "in.png") (Some sample_image) "FloydSteinberg.jpg"
           "FloydSteinberg.jpg") in H as (_ & _ & _ & Hx).
  apply (Hx 1). vm_compute. reflexivity.
Defined.

Lemma Quantify_encoder_choice_witness :
  EvJpegEncode "FloydSteinberg.jpg" (Some (Paletted_image sample_dst)) 100
    ∈ trace (Quantify fair_world defaults (mkFile "in.png")
               (Some sample_image) "FloydSteinberg.jpg") /\
  is_encode (EvJpegEncode "FloydSteinberg.jpg"
               (Some (Paletted_image sample_dst)) 100) = true /\
  os_Create fair_world "FloydSteinberg.jpg" = None.
Proof.
  assert (EvJpegEncode "FloydSteinberg.jpg" (Some (Paletted_image sample_dst))
            100
          ∈ trace (Quantify fair_world defaults (mkFile "in.png")
                     (Some sample_image) "FloydSteinberg.jpg")) as H
    by find_event.
  split; [exact H |]. split; [reflexivity |].
  exact (proj1 (Quantify_encoder_choice fair_world defaults (mkFile "in.png")
                  (Some sample_image) "FloydSteinberg.jpg" _ H eq_refl)).
Defined.

Lemma main_usage_witness :
  wants_usage ["colorquant"; "-h"] /\
  main fair_world ["colorquant"; "-h"] =
  mkRun [EvPrint (helper +:+ nl)] (Exited 1).
Proof.
  assert (wants_usage ["colorquant"; "-h"]) as H
    by (right; right; reflexivity).
  split; [exact H |].
  exact (proj2 (main_usage fair_world ["colorquant"; "-h"]) H).
Defined.

Lemma main_opens_only_first_argument_witness :
  (EvOpen "in.png" ∈ trace (main fair_world ["colorquant"; "in.png"]) \/
   EvDecode "in.png" ∈ trace (main fair_world ["colorquant"; "in.png"])) /\
  ["colorquant"; "in.png"] !! 1%nat = Some "in.png".
Proof.
  assert (EvOpen "in.png" ∈ trace (main fair_world ["colorquant"; "in.png"]) \/
          EvDecode "in.png" ∈ trace (main fair_world ["colorquant"; "in.png"]))
    as H by (left; find_event).
  split; [exact H |].
  exact (proj1 (main_opens_only_first_argument fair_world
                  ["colorquant"; "in.png"] "in.png" H)).
Defined.

Lemma main_Quantize_guard_witness :
  EvQuantize (Kernel FloydSteinberg) (Some sample_image) sample_dst 2 true true
    ∈ trace (main fair_world ["colorquant"; "in.png"; "-palette"; "2"]) /\
  2 <= 2.
Proof.
  assert (EvQuantize (Kernel FloydSteinberg) (Some sample_image) sample_dst
            2 true true
          ∈ trace (main fair_world ["colorquant"; "in.png"; "-palette"; "2"]))
    as H by find_event.
  split; [exact H |].
  exact (proj1 (main_Quantize_guard fair_world
                  ["colorquant"; "in.png"; "-palette"; "2"] _ _ _ _ _ _ H)).
Defined.

Lemma main_output_file_name_witness :
  EvCreate "output.png"
    ∈ trace (main fair_world
               ["colorquant"; "in.png"; "-no-dither"; "-type"; "png"]) /\
  exists g,
    flag_Parse fair_world defaults
      (drop 2 ["colorquant"; "in.png"; "-no-dither"; "-type"; "png"]) = inl g /\
    (imageType g = "jpg" \/ imageType g = "png") /\
    "output.png" =
    (if noDither g then "output" else ditherer g) +:+ "." +:+ imageType g.
Proof.
  assert (EvCreate "output.png"
            ∈ trace (main fair_world
                       ["colorquant"; "in.png"; "-no-dither"; "-type"; "png"]))
    as H by find_event.
  split; [exact H |].
  exact (main_output_file_name fair_world
           ["colorquant"; "in.png"; "-no-dither"; "-type"; "png"]
           "output.png" H).
Defined.

Lemma main_log_is_fatal_witness :
  EvLog "jpeg: encoding failed"
    ∈ trace (main failing_encoder_world ["colorquant"; "in.png"]) /\
  outcome (main failing_encoder_world ["colorquant"; "in.png"]) = Exited 1 /\
  last (trace (main failing_encoder_world ["colorquant"; "in.png"])) =
    Some (EvLog "jpeg: encoding failed").
Proof.
  assert (EvLog "jpeg: encoding failed"
            ∈ trace (main failing_encoder_world ["colorquant"; "in.png"]))
    as H by find_event.
  split; [exact H |].
  exact (main_log_is_fatal failing_encoder_world ["colorquant"; "in.png"]
           "jpeg: encoding failed" H).
Defined.

Lemma main_returns_after_completion_witness :
  outcome (main fair_world ["colorquant"; "in.png"]) = Returned tt /\
  EvProgress ∈ trace (main fair_world ["colorquant"; "in.png"]).
Proof.
  assert (outcome (main fair_world ["colorquant"; "in.png"]) = Returned tt)
    as H by (vm_compute; reflexivity).
  split; [exact H |].
  exact (proj1 (main_returns_after_completion fair_world
                  ["colorquant"; "in.png"] H)).
Defined.

Lemma main_output_directory_witness :
  (EvMkdir "/home/user/pictures"
     ∈ trace (main fair_world ["colorquant"; "in.png"; "-output"; "pictures"]) \/
   EvChdir "/home/user/pictures"
     ∈ trace (main fair_world ["colorquant"; "in.png"; "-output"; "pictures"])) /\
  EvMkdir "/home/user/pictures"
    ∈ trace (main fair_world ["colorquant"; "in.png"; "-output"; "pictures"]) /\
  EvChdir "/home/user/pictures"
    ∈ trace (main fair_world ["colorquant"; "in.png"; "-output"; "pictures"]).
Proof.
  assert (EvMkdir "/home/user/pictures"
            ∈ trace (main fair_world
                       ["colorquant"; "in.png"; "-output"; "pictures"]) \/
          EvChdir "/home/user/pictures"
            ∈ trace (main fair_world
                       ["colorquant"; "in.png"; "-output"; "pictures"]))
    as H by (right; find_event).
  split; [exact H |].
  exact (proj1 (main_output_directory fair_world
                  ["colorquant"; "in.png"; "-output"; "pictures"]
                  "/home/user/pictures" H)).
Defined.

Lemma main_unrecognized_type_witness :
  "in.txt" <> "--help" /\ "in.txt" <> "-h" /\
  flag_Parse undecodable_world defaults ["-type"; "gif"] = inl gif_flags /\
  1 < numColors gif_flags /\
  filepath_Abs undecodable_world (filepath_Dir undecodable_world "in.txt") =
    ("/home/user", None) /\
  imageType gif_flags <> "jpg" /\ imageType gif_flags <> "png" /\
  main undecodable_world ["colorquant"; "in.txt"; "-type"; "gif"] =
  mkRun (trace (Open undecodable_world (mkFile "in.txt")) ++
         setup_events (filepath_Dir undecodable_world "/home/user" +:+ "/"
                       +:+ output gif_flags) ++
         [EvDone; EvPrint done_message;
          EvPrint (rendered_message undecodable_world)])
        (Returned tt).
Proof.
  assert ("in.txt" <> "--help") as H1 by discriminate.
  assert ("in.txt" <> "-h") as H2 by discriminate.
  assert (flag_Parse undecodable_world defaults ["-type"; "gif"] =
          inl gif_flags) as H3 by (vm_compute; reflexivity).
  assert (1 < numColors gif_flags) as H4 by reflexivity.
  assert (imageType gif_flags <> "jpg") as H6 by discriminate.
  assert (imageType gif_flags <> "png") as H7 by discriminate.
  repeat (split; [first [assumption | reflexivity] |]).
  exact (main_unrecognized_type undecodable_world "colorquant" "in.txt"
           ["-type"; "gif"] gif_flags "/home/user" H1 H2 H3 H4 eq_refl H6 H7).
Defined.

Lemma main_successful_run_witness :
  "in.png" <> "--help" /\ "in.png" <> "-h" /\
  flag_Parse fair_world defaults [] = inl defaults /\
  os_Open fair_world "in.png" = None /\
  image_Decode fair_world "in.png" = (Some sample_image, None) /\
  1 < numColors defaults /\
  filepath_Abs fair_world (filepath_Dir fair_world "in.png") =
    ("/home/user", None) /\
  imageType defaults = "jpg" /\ noDither defaults = false /\
  dither !! ditherer defaults = Some FloydSteinberg /\
  image.NewPaletted (destination (image.Bounds sample_image)) palette.WebSafe
    = Some sample_dst /\
  Quantize fair_world (Kernel FloydSteinberg) (Some sample_image) sample_dst
    (numColors defaults) true true = Some (Paletted_image sample_dst) /\
  os_Create fair_world (ditherer defaults +:+ ".jpg") = None /\
  jpeg_Encode fair_world (ditherer defaults +:+ ".jpg")
    (Paletted_image sample_dst) (compression defaults) = None /\
  outcome (main fair_world ["colorquant"; "in.png"]) = Returned tt.
Proof.
  assert ("in.png" <> "--help") as H1 by discriminate.
  assert ("in.png" <> "-h") as H2 by discriminate.
  assert (1 < numColors defaults) as H6 by reflexivity.
  assert (dither !! ditherer defaults = Some FloydSteinberg) as H10
    by (vm_compute; reflexivity).
  repeat (split; [first [assumption | reflexivity] |]).
  rewrite (main_successful_run fair_world "colorquant" "in.png" [] defaults
             "/home/user" sample_image None FloydSteinberg sample_dst
             (Paletted_image sample_dst)
             H1 H2 eq_refl eq_refl eq_refl H6 eq_refl eq_refl eq_refl H10
             eq_refl eq_refl eq_refl eq_refl).
  reflexivity.
Defined.

Lemma main_default_invocation_witness :
  flag_Parse fair_world defaults [] = inl defaults /\
  EvCreate "FloydSteinberg.jpg"
    ∈ trace (main fair_world ["colorquant"; "in.png"]) /\
  "FloydSteinberg.jpg" = "FloydSteinberg.jpg".
Proof.
  assert (EvCreate "FloydSteinberg.jpg"
            ∈ trace (main fair_world ["colorquant"; "in.png"])) as H
    by find_event.
  split; [reflexivity |]. split; [exact H |].
  exact (main_default_invocation fair_world "colorquant" "in.png"
           (EvCreate "FloydSteinberg.jpg") eq_refl H).
Defined.
